(** * A shallow embedding of the quiz-solving agent

    The development follows the three source files:

    - [Tools]  embeds [tools.py]  (the five tool adapters),
    - [Agent]  embeds [agent.py]  (the bounded decision loop),
    - [Main]   embeds [main.py]   (the [/quiz] endpoint).

    Everything outside the repository (the language model, the browser,
    the network, the file system, the interpreter running a snippet) is a
    field of the record [World]; the code of the repository is written on
    top of it in a small exception monad that tells an instance of
    [Exception] from the other instances of [BaseException], because the
    source only ever writes [except Exception] or a bare [except]. *)

From Stdlib Require Import String Ascii List ZArith Lia Bool Arith DecimalString.
Import ListNotations.
Local Open Scope list_scope.
Local Open Scope string_scope.
Set Warnings "-register-all,-abstract-large-number,-notation-for-abbreviation".

(* ================================================================== *)
(** ** Python values, strings and exceptions                           *)
(* ================================================================== *)

Module Py.

(** The values that travel through the agent are the ones [json.loads]
    and [Response.json] produce, plus the dicts the code builds itself.
    Numbers are integers here: a float never decides a branch of the
    source except through [== True], where [1.0] behaves as [1]. A
    [VDict] lists the items of the dict, each key once. Characters are
    the 8-bit characters of [ascii]. *)
Inductive value : Type :=
| VNone
| VBool (b : bool)
| VInt (z : Z)
| VStr (s : string)
| VList (l : list value)
| VDict (items : list (string * value)).

(** [Exception m]: an instance of a subclass of [Exception] whose [str]
    is [m].  [BaseException m]: an instance of [BaseException] that is
    not an [Exception] ([SystemExit], [KeyboardInterrupt], ...). *)
Inductive exn : Type :=
| Exception (msg : string)
| BaseException (msg : string).

Inductive outcome (A : Type) : Type :=
| Return (a : A)
| Raise (e : exn).
Arguments Return {A} a.
Arguments Raise {A} e.

Definition bind {A B} (c : outcome A) (k : A -> outcome B) : outcome B :=
  match c with
  | Return a => k a
  | Raise e => Raise e
  end.

Declare Scope py_scope.
Delimit Scope py_scope with py.
Notation "x <- c ;; k" := (bind c (fun x => k))
  (at level 61, c at next level, right associativity) : py_scope.
Notation "c ;;; k" := (bind c (fun _ => k))
  (at level 61, right associativity) : py_scope.

(** [try: body / except Exception as e: handler(str(e))] *)
Definition try_except {A} (body : outcome A) (handler : string -> outcome A)
  : outcome A :=
  match body with
  | Raise (Exception msg) => handler msg
  | other => other
  end.

(** [try: body / except: handler] catches every exception. *)
Definition try_except_all {A} (body : outcome A) (handler : outcome A)
  : outcome A :=
  match body with
  | Raise _ => handler
  | other => other
  end.

(** *** Strings *)

Definition newline : string := String (ascii_of_nat 10) EmptyString.

(** [s[:n]] *)
Definition slice_to (n : nat) (s : string) : string := substring 0 n s.

Definition is_lower (c : ascii) : bool :=
  Nat.leb 97 (nat_of_ascii c) && Nat.leb (nat_of_ascii c) 122.


Definition upper_ascii (c : ascii) : ascii :=
  if is_lower c then ascii_of_nat (nat_of_ascii c - 32) else c.

(** [s.upper()] for a text [s] of ASCII characters: the letters a-z go
    to A-Z and nothing else changes. Python's [str.upper] maps the
    letters of every script, some of them to ASCII letters and some to
    more than one character, so the builtin itself is a parameter of the
    loop ([py_upper] below); this function says what the builtin does on
    ASCII text, and stands for it in the concrete sessions, whose texts
    are ASCII. *)
Fixpoint ascii_upper (s : string) : string :=
  match s with
  | EmptyString => EmptyString
  | String c rest => String (upper_ascii c) (ascii_upper rest)
  end.



(** [needle in hay] for two strings. *)
Fixpoint contains (needle hay : string) : bool :=
  prefix needle hay ||
  match hay with
  | EmptyString => false
  | String _ rest => contains needle rest
  end.




(** *** Operations on values *)

Fixpoint lookup (key : string) (items : list (string * value)) : option value :=
  match items with
  | [] => None
  | (k, v) :: rest => if String.eqb k key then Some v else lookup key rest
  end.

(** [type(v).__name__] *)
Definition type_name (v : value) : string :=
  match v with
  | VNone => "NoneType"
  | VBool _ => "bool"
  | VInt _ => "int"
  | VStr _ => "str"
  | VList _ => "list"
  | VDict _ => "dict"
  end.

(** [str(AttributeError)] for a missing attribute [attr] of [v]. *)
Definition attribute_error (v : value) (attr : string) : exn :=
  Exception ("'" ++ type_name v ++ "' object has no attribute '" ++ attr ++ "'").

(** [v.get(key, default)]: only a dict has [get]. *)
Definition get (v : value) (key : string) (default : value) : outcome value :=
  match v with
  | VDict items =>
      Return (match lookup key items with Some x => x | None => default end)
  | _ => Raise (attribute_error v "get")
  end.

(** [v.upper()], with [upper] for [str.upper]: only a str has it. *)
Definition str_upper (upper : string -> string) (v : value) : outcome string :=
  match v with
  | VStr s => Return (upper s)
  | _ => Raise (attribute_error v "upper")
  end.

(** [v == True]: [True], and the number one, which Python equates with it. *)
Definition eq_True (v : value) : bool :=
  match v with
  | VBool true => true
  | VInt 1 => true
  | _ => false
  end.

(** [bool(v)], the test of [if v:]. *)
Definition truthy (v : value) : bool :=
  match v with
  | VNone => false
  | VBool b => b
  | VInt z => negb (Z.eqb z 0)
  | VStr s => negb (String.eqb s EmptyString)
  | VList l => match l with [] => false | _ => true end
  | VDict items => match items with [] => false | _ => true end
  end.

End Py.
Import Py.
Local Open Scope py_scope.

(* ================================================================== *)
(** ** The world outside the repository                                *)
(* ================================================================== *)

(** An item of the agent's [history] list ([agent.py], lines 114 and
    118): [{"step": .., "tool": .., "result": ..}] or [{"error": ..}]. *)
Inductive entry : Type :=
| StepRecord (step : nat) (tool : string) (result : string)
| ErrorRecord (error : string).

(** [system_msg] is a fixed text with two holes, [current_url] and
    [json.dumps(history[-3:])]; the prompt is kept as what fills them. *)
Record Prompt : Type := {
  prompt_url : value;
  prompt_history : list entry
}.

(** What the code reads of a [requests.Response]. *)
Record Response : Type := {
  status_code : Z;
  text : string;
  content : string;
  content_type : option string;      (* headers.get('content-type') *)
  json : outcome value               (* res.json() *)
}.

(** The collaborators of one loop iteration. Each is called at most once
    in an iteration, so one record per iteration describes any run. *)
Record World : Type := {
  generate_content : Prompt -> outcome string;            (* model.generate_content(..).text *)
  page_goto : value -> outcome unit;                      (* page.goto(url, timeout=60000) *)
  page_wait_for_load_state : value -> outcome unit;       (* page.wait_for_load_state("networkidle") *)
  page_evaluate : value -> outcome string;                (* page.evaluate("document.body.innerText") *)
  requests_get : value -> outcome Response;               (* requests.get(url, ..) *)
  requests_post : value -> value -> outcome Response;     (* requests.post(submit_url, json=payload) *)
  open_write : string -> string -> outcome unit;          (* open(filename, 'wb') and f.write(content) *)
  pdfplumber_open : value -> outcome (list (outcome (option string)));
                                                          (* the pages, each with its extract_text() *)
  py_exec : value -> string -> outcome string             (* exec(code, ..): the captured stdout *)
}.

(** An outcome that is no exception outside [Exception]. *)
Definition contained {A : Type} (c : outcome A) : Prop :=
  forall msg, c <> Raise (BaseException msg).

(** A world whose browser, network, files and PDF reader fail with
    instances of [Exception] only, as their libraries do. The
    interpreter is left out: a snippet raises what it likes. *)
Definition fails_with_exceptions (w : World) : Prop :=
  (forall u, contained (page_goto w u))
  /\ (forall u, contained (page_wait_for_load_state w u))
  /\ (forall u, contained (page_evaluate w u))
  /\ (forall u, contained (requests_get w u))
  /\ (forall u p, contained (requests_post w u p))
  /\ (forall f c, contained (open_write w f c))
  /\ (forall f, contained (pdfplumber_open w f))
  /\ (forall f pages, pdfplumber_open w f = Return pages -> Forall contained pages).

(** A session's surroundings: the browser start-up that precedes the
    loop, and the world met by each iteration. *)
Record Env : Type := {
  launch : outcome unit;
  world_at : nat -> World
}.

(* ================================================================== *)
(** ** tools.py                                                        *)
(* ================================================================== *)

Module Tools.

(** [execute_python_code(code, text_input)] *)
Definition execute_python_code (w : World) (code : value) (text_input : string)
  : outcome string :=
  try_except
    (out <- py_exec w code text_input ;;
     Return out)
    (fun e => Return ("Error executing code: " ++ e)).

(** [scrape_page(page, url)] *)
Definition scrape_page (w : World) (url : value) : outcome string :=
  try_except
    (page_goto w url ;;;
     page_wait_for_load_state w url ;;;
     text <- page_evaluate w url ;;
     Return (slice_to 30000 text))
    (fun e => Return ("Error scraping page: " ++ e)).

(** ["." in filename] for whatever [filename] is. *)
Definition dot_in (filename : value) : outcome bool :=
  match filename with
  | VStr s => Return (contains "." s)
  | VList l =>
      Return (existsb (fun x => match x with
                                | VStr s => String.eqb s "."
                                | _ => false
                                end) l)
  | VDict items =>
      Return (match lookup "." items with Some _ => true | None => false end)
  | _ => Raise (Exception ("argument of type '" ++ type_name filename
                           ++ "' is not iterable"))
  end.

(** [filename += ext]: a list is extended by the characters of [ext]. *)
Definition iadd (filename : value) (ext : string) : outcome value :=
  match filename with
  | VStr s => Return (VStr (s ++ ext))
  | VList l =>
      Return (VList (l ++ map (fun c => VStr (String c EmptyString))
                              (list_ascii_of_string ext))%list)
  | _ => Raise (Exception ("unsupported operand type(s) for +=: '"
                           ++ type_name filename ++ "' and 'str'"))
  end.

(** The file name [open] accepts; a list or a dict is none. *)
Definition as_path (filename : value) : outcome string :=
  match filename with
  | VStr s => Return s
  | _ => Raise (Exception ("expected str, bytes or os.PathLike object, not "
                           ++ type_name filename))
  end.

(** [download_file(url, filename)] *)
Definition download_file (w : World) (url : value) (filename : value)
  : outcome string :=
  try_except
    (response <- requests_get w url ;;
     has_dot <- dot_in filename ;;
     filename <-
       (if negb has_dot then
          let content_type :=
            match content_type response with Some c => c | None => EmptyString end in
          if contains "pdf" content_type then iadd filename ".pdf"
          else if contains "csv" content_type then iadd filename ".csv"
          else iadd filename ".txt"
        else Return filename) ;;
     path <- as_path filename ;;
     open_write w path (content response) ;;;
     Return ("Success. File saved to " ++ path))
    (fun e => Return ("Error downloading: " ++ e)).

(** The [for page in pdf.pages] loop of [read_pdf]. *)
Fixpoint extract_pages (pages : list (outcome (option string))) (text : string)
  : outcome string :=
  match pages with
  | [] => Return text
  | page :: rest =>
      extracted <- page ;;
      extract_pages rest
        (match extracted with
         | Some (String c s) => text ++ String c s ++ newline
         | _ => text
         end)
  end.

(** [read_pdf(filename)] *)
Definition read_pdf (w : World) (filename : value) : outcome string :=
  try_except
    (pages <- pdfplumber_open w filename ;;
     text <- extract_pages pages EmptyString ;;
     Return (slice_to 10000 text))
    (fun e => Return ("Error reading PDF: " ++ e)).

(** [submit_quiz(submit_url, payload)] *)
Definition submit_quiz (w : World) (submit_url : value) (payload : value)
  : outcome value :=
  try_except
    (res <- requests_post w submit_url payload ;;
     try_except_all
       (json res)
       (Return (VDict [("status", VInt (status_code res));
                       ("text", VStr (text res))])))
    (fun e => Return (VDict [("error", VStr e)])).

End Tools.

(* ================================================================== *)
(** ** agent.py                                                        *)
(* ================================================================== *)

Module Agent.

Record Session : Type := {
  current_url : value;
  history : list entry
}.

(** The five names of the [if]/[elif] chain. *)
Inductive tool_name : Type := SCRAPE | DOWNLOAD | READ_PDF | PYTHON | SUBMIT.

Definition tool_text (t : tool_name) : string :=
  match t with
  | SCRAPE => "SCRAPE"
  | DOWNLOAD => "DOWNLOAD"
  | READ_PDF => "READ_PDF"
  | PYTHON => "PYTHON"
  | SUBMIT => "SUBMIT"
  end.


(** The branch taken by [if tool == "SCRAPE": .. elif tool == ..]. *)
Definition match_tool (tool : string) : option tool_name :=
  if String.eqb tool "SCRAPE" then Some SCRAPE
  else if String.eqb tool "DOWNLOAD" then Some DOWNLOAD
  else if String.eqb tool "READ_PDF" then Some READ_PDF
  else if String.eqb tool "PYTHON" then Some PYTHON
  else if String.eqb tool "SUBMIT" then Some SUBMIT
  else None.

(** How the body of the [try] leaves: by falling through to the history
    update with [tool] and [result], by [continue], or by [break]. *)
Inductive flow : Type :=
| Observe (tool : string) (result : string)
| Continue (new_url : value)
| Break.

(** What one iteration does to the loop. *)
Inductive step_result : Type :=
| Next (s : Session)
| Finished
| Escaped (e : exn).

Definition range (n : nat) : list nat := seq 0 n.

(** [history[-3:]] *)
Definition last3 (h : list entry) : list entry := skipn (length h - 3) h.

(** [history[-1]] of a non-empty history. *)
Fixpoint last_entry (h : list entry) : option entry :=
  match h with
  | [] => None
  | e :: rest => match rest with [] => Some e | _ => last_entry rest end
  end.

(** [item['result']]: an error record has no such key. *)
Definition item_result (e : entry) : outcome string :=
  match e with
  | StepRecord _ _ result => Return result
  | ErrorRecord _ => Raise (Exception "'result'")
  end.

Definition system_msg (s : Session) : Prompt :=
  {| prompt_url := current_url s; prompt_history := last3 (history s) |}.

(** The [payload] dict of the SUBMIT branch. *)
Definition submission (email secret : string) (s : Session) (answer : value)
  : value :=
  VDict [("email", VStr email); ("secret", VStr secret);
         ("url", current_url s); ("answer", answer)].

(** The world [w] with another interpreter. *)
Definition with_py_exec (f : value -> string -> outcome string) (w : World)
  : World :=
  {| generate_content := generate_content w;
     page_goto := page_goto w;
     page_wait_for_load_state := page_wait_for_load_state w;
     page_evaluate := page_evaluate w;
     requests_get := requests_get w;
     requests_post := requests_post w;
     open_write := open_write w;
     pdfplumber_open := pdfplumber_open w;
     py_exec := f |}.

Section Loop.

(** Two builtins the loop relies on: [json.loads], and the [str] that an
    f-string applies to a decoded value. *)
Variable json_loads : string -> outcome value.
Variable py_str : value -> string.

(** A third builtin: [str.upper], which maps the letters of every
    script and is not spelled out here. *)
Variable py_upper : string -> string.

(** The decoded answers on which lines 65-96 raise: what is no dict, a
    dict whose ['tool'] is no str, and a dict that names one of the five
    tools while its ['args'] is no dict. *)
Definition malformed (v : value) : bool :=
  match v with
  | VDict items =>
      match lookup "tool" items with
      | None => false
      | Some (VStr raw) =>
          match match_tool (py_upper raw), lookup "args" items with
          | Some _, Some (VDict _) => false
          | Some _, Some _ => true
          | _, _ => false
          end
      | Some _ => true
      end
  | _ => true
  end.

(** Lines 59-65: ask the model and decode its answer. *)
Definition reasoning_step (w : World) (s : Session) : outcome value :=
  response <- generate_content w (system_msg s) ;;
  action <- json_loads response ;;
  get action "tool" VNone ;;;     (* the print of line 65 *)
  Return action.

(** Lines 67-111: run the tool the action names. *)
Definition action_step (w : World) (email secret : string) (s : Session)
    (action : value) : outcome flow :=
  tool_field <- get action "tool" (VStr EmptyString) ;;
  tool <- str_upper py_upper tool_field ;;
  args <- get action "args" (VDict []) ;;
  match match_tool tool with
  | Some SCRAPE =>
      target <- get args "url" (current_url s) ;;
      result <- Tools.scrape_page w target ;;
      Return (Observe tool result)
  | Some DOWNLOAD =>
      url <- get args "url" VNone ;;
      filename <- get args "filename" (VStr "data_file") ;;
      result <- Tools.download_file w url filename ;;
      Return (Observe tool result)
  | Some READ_PDF =>
      filename <- get args "filename" VNone ;;
      result <- Tools.read_pdf w filename ;;
      Return (Observe tool result)
  | Some PYTHON =>
      last_text <-
        match last_entry (history s) with
        | Some item => item_result item
        | None => Return EmptyString
        end ;;
      code <- get args "code" VNone ;;
      result <- Tools.execute_python_code w code last_text ;;
      Return (Observe tool result)
  | Some SUBMIT =>
      answer <- get args "answer" VNone ;;
      let payload := submission email secret s answer in
      submit_url <- get args "url" VNone ;;
      submit_res <- Tools.submit_quiz w submit_url payload ;;
      correct <- get submit_res "correct" VNone ;;
      if eq_True correct then
        new_url <- get submit_res "url" VNone ;;
        if truthy new_url then Return (Continue new_url) else Return Break
      else
        reason <- get submit_res "reason" VNone ;;
        Return (Observe tool ("Submission failed. Reason: " ++ py_str reason))
  | None => Return (Observe tool EmptyString)
  end.

(** One iteration of [for step in range(10)]: the [try] with its
    [except Exception], and the history update of line 114. *)
Definition agent_step (w : World) (step : nat) (email secret : string)
    (s : Session) : step_result :=
  match (action <- reasoning_step w s ;; action_step w email secret s action) with
  | Return (Observe tool result) =>
      Next {| current_url := current_url s;
              history := (history s ++ [StepRecord step tool (slice_to 800 result)])%list |}
  | Return (Continue new_url) =>
      Next {| current_url := new_url; history := [] |}
  | Return Break => Finished
  | Raise (Exception e) =>
      Next {| current_url := current_url s;
              history := (history s ++ [ErrorRecord e])%list |}
  | Raise (BaseException e) => Escaped (BaseException e)
  end.

(** The model answered with an action that names [tool] (in any case)
    and carries the argument mapping [args]. *)
Definition names_tool (w : World) (s : Session) (tool : tool_name)
    (args : value) : Prop :=
  exists action raw,
    reasoning_step w s = Return action /\
    get action "tool" (VStr EmptyString) = Return (VStr raw) /\
    py_upper raw = tool_text tool /\
    get action "args" (VDict []) = Return args.

(** The iteration is a SUBMIT whose call to [submit_quiz] returns [res]. *)
Definition submit_returns (w : World) (email secret : string) (s : Session)
    (res : value) : Prop :=
  exists args answer submit_url,
    names_tool w s SUBMIT args /\
    get args "answer" VNone = Return answer /\
    get args "url" VNone = Return submit_url /\
    Tools.submit_quiz w submit_url (submission email secret s answer) = Return res.

(** The iteration is a SUBMIT whose response dict is correct and holds
    the truthy value [u] under [url]. *)
Definition moves_to (w : World) (email secret : string) (s : Session)
    (u : value) : Prop :=
  exists items,
    submit_returns w email secret s (VDict items)
    /\ eq_True (match lookup "correct" items with
                | Some x => x
                | None => VNone
                end) = true
    /\ match lookup "url" items with Some x => x | None => VNone end = u
    /\ truthy u = true.

(** How a session ends. *)
Inductive ending : Type :=
| Done                      (* [break] after the final correct answer *)
| Exhausted                 (* [range(10)] ran out *)
| Aborted (e : exn)         (* an exception left the loop *)
| LaunchFailed (e : exn).   (* the browser did not start *)

(** A finished session: the indices whose body ran, in order, the
    session as it was left, and the way it ended. *)
Record Run : Type := {
  executed : list nat;
  final : Session;
  outcome_of : ending
}.

Definition ran (step : nat) (r : Run) : Run :=
  {| executed := step :: executed r; final := final r; outcome_of := outcome_of r |}.

(** The [for] loop over the indices still to come. *)
Fixpoint for_loop (env : Env) (email secret : string) (steps : list nat)
    (s : Session) : Run :=
  match steps with
  | [] => {| executed := []; final := s; outcome_of := Exhausted |}
  | step :: rest =>
      match agent_step (world_at env step) step email secret s with
      | Next s' => ran step (for_loop env email secret rest s')
      | Finished => {| executed := [step]; final := s; outcome_of := Done |}
      | Escaped e => {| executed := [step]; final := s; outcome_of := Aborted e |}
      end
  end.

(** The loop from index [k] on: the indices [k], .., [9]. *)
Definition loop_from (env : Env) (email secret : string) (k : nat)
    (s : Session) : Run :=
  for_loop env email secret (seq k (10 - k)) s.

(** [run_agent_loop(start_url, email, secret)] *)
Definition run_agent_loop (env : Env) (start_url email secret : string) : Run :=
  let s0 := {| current_url := VStr start_url; history := [] |} in
  match launch env with
  | Raise e => {| executed := []; final := s0; outcome_of := LaunchFailed e |}
  | Return _ => for_loop env email secret (range 10) s0
  end.

End Loop.

End Agent.

(* ================================================================== *)
(** ** main.py                                                         *)
(* ================================================================== *)

Module Main.

(** [QuizRequest] *)
Record QuizRequest : Type := {
  email : string;
  secret : string;
  url : string
}.

(** A call handed to [BackgroundTasks.add_task]:
    [agent.run_agent_loop(url, email, secret)]. *)
Record Task : Type := {
  task_url : string;
  task_email : string;
  task_secret : string
}.

(** What the endpoint answers: the JSON body of the success response, or
    the [HTTPException] it raises. *)
Inductive reply : Type :=
| Body (message status : string)
| HTTPException (status_code : Z) (detail : string).

(** [start_quiz(req, tasks)], with [MY_SECRET] read from the environment
    at import time; the second component is [tasks] afterwards. *)
Definition start_quiz (MY_SECRET : string) (req : QuizRequest) (tasks : list Task)
  : reply * list Task :=
  if negb (String.eqb (secret req) MY_SECRET) then
    (HTTPException 403 "Invalid Secret Key. Access Denied.", tasks)
  else
    (Body "Agent task started successfully" "processing",
     (tasks ++ [{| task_url := url req; task_email := email req;
                   task_secret := secret req |}])%list).

End Main.

(* ================================================================== *)
(** ** The specification's action                                      *)
(* ================================================================== *)

Module Spec.

(** Not taken from the code: the shape the specification gives an
    action (its sections 3 and 4.2), an object with a tool name and,
    when it has one, an argument mapping. It is only used to say that
    an answer is no action. *)
Definition valid_action_object (v : value) : bool :=
  match v with
  | VDict items =>
      match lookup "tool" items with
      | Some (VStr _) =>
          match lookup "args" items with
          | None | Some (VDict _) => true
          | Some _ => false
          end
      | _ => false
      end
  | _ => false
  end.

End Spec.

(* ================================================================== *)
(** ** Vocabulary of the further properties                            *)
(* ================================================================== *)

Module Shape.

(** What line 114 stores: the index of the iteration and at most 800
    characters of result. *)
Definition record_of (step : nat) (e : entry) : Prop :=
  match e with
  | StepRecord k tool result => k = step /\ String.length result <= 800
  | ErrorRecord _ => True
  end.

(** An entry that some iteration of [range(10)] can have stored. *)
Definition entry_ok (e : entry) : Prop :=
  match e with
  | StepRecord k tool result => k < 10 /\ String.length result <= 800
  | ErrorRecord _ => True
  end.

(** [d.get(key)] on the items of a dict. *)
Definition field (items : list (string * value)) (key : string) : value :=
  match lookup key items with
  | Some x => x
  | None => VNone
  end.

(** What a PYTHON iteration makes of each way the snippet can end. *)
Definition python_outcome (step : nat) (s : Agent.Session)
    (ran : outcome string) : Agent.step_result :=
  match ran with
  | Return printed =>
      Agent.Next {| Agent.current_url := Agent.current_url s;
              Agent.history := (Agent.history s ++
                          [StepRecord step "PYTHON" (slice_to 800 printed)])%list |}
  | Raise (Exception e) =>
      Agent.Next {| Agent.current_url := Agent.current_url s;
              Agent.history := (Agent.history s ++
                          [StepRecord step "PYTHON"
                             (slice_to 800 ("Error executing code: " ++ e))])%list |}
  | Raise (BaseException e) => Agent.Escaped (BaseException e)
  end.

(** The pages of a PDF that have text, in page order. *)
Definition texts_of (extracted : list (option string)) : list string :=
  flat_map (fun x => match x with
                     | Some (String c s) => [String c s]
                     | _ => []
                     end) extracted.

(** Each text followed by a newline. *)
Definition lines (texts : list string) : string :=
  fold_right (fun t rest => t ++ newline ++ rest) EmptyString texts.

End Shape.

(* ================================================================== *)
(** ** Concrete worlds                                                  *)
(* ================================================================== *)

(** Small worlds on which the statements below are run. The texts and
    values in them are made of letters, digits and URL punctuation only,
    so that encoding a value needs no escape, and [str.upper] is
    [ascii_upper] on them. *)
Module Samples.

Definition quote : string := String (ascii_of_nat 34) EmptyString.

Definition decimal (z : Z) : string := NilZero.string_of_int (Z.to_int z).

Fixpoint join (sep : string) (l : list string) : string :=
  match l with
  | [] => EmptyString
  | x :: rest => match rest with [] => x | _ => x ++ sep ++ join sep rest end
  end.

(** [json.dumps(v)] on such values. *)
Fixpoint dumps (v : value) : string :=
  match v with
  | VNone => "null"
  | VBool true => "true"
  | VBool false => "false"
  | VInt z => decimal z
  | VStr s => quote ++ s ++ quote
  | VList l => "[" ++ join ", " (map dumps l) ++ "]"
  | VDict items =>
      "{" ++ join ", " (map (fun '(k, x) => quote ++ k ++ quote ++ ": " ++ dumps x)
                            items) ++ "}"
  end.

(** [str(v)] on such values. *)
Fixpoint str (v : value) : string :=
  match v with
  | VNone => "None"
  | VBool true => "True"
  | VBool false => "False"
  | VInt z => decimal z
  | VStr s => s
  | VList l =>
      "[" ++ join ", " (map (fun x => match x with
                                      | VStr s => "'" ++ s ++ "'"
                                      | _ => str x
                                      end) l) ++ "]"
  | VDict items =>
      "{" ++ join ", " (map (fun '(k, x) => "'" ++ k ++ "': " ++
                                            match x with
                                            | VStr s => "'" ++ s ++ "'"
                                            | _ => str x
                                            end) items) ++ "}"
  end.

(** The actions the sample oracles answer with. *)
Definition submit_action : value :=
  VDict [("tool", VStr "submit");
         ("args", VDict [("url", VStr "https://quiz.test/submit");
                         ("answer", VStr "42")])].
Definition python_action : value :=
  VDict [("tool", VStr "Python"); ("args", VDict [("code", VStr "print(6 * 7)")])].
Definition exit_action : value :=
  VDict [("tool", VStr "PYTHON"); ("args", VDict [("code", VStr "raise SystemExit")])].
Definition unknown_action : value :=
  VDict [("tool", VStr "Search"); ("args", VDict [("query", VStr "answer")])].
Definition no_tool_action : value := VDict [].
Definition list_action : value := VList [VStr "SCRAPE"].

Definition documents : list value :=
  [submit_action; python_action; exit_action; unknown_action; no_tool_action;
   list_action].

(** [json.loads] on the texts of [documents]; any other text used below
    is not JSON at all. *)
Definition loads (text : string) : outcome value :=
  match find (fun v => String.eqb (dumps v) text) documents with
  | Some v => Return v
  | None => Raise (Exception "Expecting value: line 1 column 1 (char 0)")
  end.

Definition unreachable {A : Type} : outcome A :=
  Raise (Exception "connection refused").

(** A world without network, files or interpreter, whose model answers
    [reply]. *)
Definition offline (reply : outcome string) : World :=
  {| generate_content := fun _ => reply;
     page_goto := fun _ => unreachable;
     page_wait_for_load_state := fun _ => unreachable;
     page_evaluate := fun _ => unreachable;
     requests_get := fun _ => unreachable;
     requests_post := fun _ _ => unreachable;
     open_write := fun _ _ => unreachable;
     pdfplumber_open := fun _ => unreachable;
     py_exec := fun _ _ => unreachable |}.

(** The same, with an endpoint that answers every POST with [body]. *)
Definition answering (reply : outcome string) (status : Z) (body : string)
    (decoded : outcome value) : World :=
  {| generate_content := fun _ => reply;
     page_goto := fun _ => unreachable;
     page_wait_for_load_state := fun _ => unreachable;
     page_evaluate := fun _ => unreachable;
     requests_get := fun _ => unreachable;
     requests_post := fun _ _ =>
       Return {| status_code := status; text := body; content := body;
                 content_type := Some "application/json"; json := decoded |};
     open_write := fun _ _ => unreachable;
     pdfplumber_open := fun _ => unreachable;
     py_exec := fun _ _ => unreachable |}.

Definition json_response (reply : outcome string) (v : value) : World :=
  answering reply 200 (dumps v) (Return v).

(** The endpoint's answer to a correct submission that names a next quiz. *)
Definition correct_next : value :=
  VDict [("correct", VBool true); ("url", VStr "https://quiz.test/q2")].

(** A session whose first action is that correct submission and whose
    later actions all name an unknown tool. *)
Definition chain_env : Env :=
  {| launch := Return tt;
     world_at := fun step =>
       match step with
       | 0 => json_response (Return (dumps submit_action)) correct_next
       | _ => offline (Return (dumps unknown_action))
       end |}.

Definition session0 : Agent.Session :=
  {| Agent.current_url := VStr "https://quiz.test/q1"; Agent.history := [] |}.

(** The endpoint's answer to a wrong submission. *)
Definition rejected (reason : string) : value :=
  VDict [("correct", VBool false); ("reason", VStr reason)].

Fixpoint copies (n : nat) (c : ascii) : string :=
  match n with
  | O => EmptyString
  | S m => String c (copies m c)
  end.

(** A reason of 800 characters. *)
Definition long_reason : string := copies 800 "x"%char.

(** A page of 30,001 characters and a PDF of two pages of 6,000. *)
Definition long_page : string := copies 30001 "p"%char.
Definition pdf_page : string := copies 6000 "t"%char.

Definition rendering : World :=
  {| generate_content := fun _ => unreachable;
     page_goto := fun _ => Return tt;
     page_wait_for_load_state := fun _ => Return tt;
     page_evaluate := fun _ => Return long_page;
     requests_get := fun _ => unreachable;
     requests_post := fun _ _ => unreachable;
     open_write := fun _ _ => unreachable;
     pdfplumber_open := fun _ =>
       Return [Return (Some pdf_page); Return None; Return (Some pdf_page)];
     py_exec := fun _ _ => unreachable |}.

(** An interpreter in which the snippet [raise SystemExit] does what it
    says, and every other snippet prints nothing. *)
Definition exiting : World :=
  Agent.with_py_exec
    (fun code _ =>
       match code with
       | VStr "raise SystemExit" => Raise (BaseException EmptyString)
       | _ => Return EmptyString
       end)
    (offline unreachable).

(** The same interpreter, under a model that asks for that snippet. *)
Definition exiting_session : World :=
  Agent.with_py_exec (py_exec exiting) (offline (Return (dumps exit_action))).

(** An endpoint that answers with the JSON text of an empty array. *)
Definition array_endpoint : World :=
  answering unreachable 200 "[]" (Return (VList [])).

(** A history that ends with a soft error. *)
Definition session_after_error : Agent.Session :=
  {| Agent.current_url := VStr "https://quiz.test/q1";
     Agent.history :=
       [StepRecord 0 "SCRAPE" "Error scraping page: connection refused";
        ErrorRecord "Expecting value: line 1 column 1 (char 0)"] |}.

(** Two more actions, and [json.loads] on the texts of all of them. *)
Definition scrape_action : value := VDict [("tool", VStr "scrape")].
Definition download_action : value :=
  VDict [("tool", VStr "Download");
         ("args", VDict [("url", VStr "https://quiz.test/data")])].

Definition more_documents : list value :=
  (documents ++ [scrape_action; download_action])%list.

Definition loads_more (text : string) : outcome value :=
  match find (fun v => String.eqb (dumps v) text) more_documents with
  | Some v => Return v
  | None => Raise (Exception "Expecting value: line 1 column 1 (char 0)")
  end.




(** A browser that renders a page of 1,000 characters, under a model
    that answers [reply]. *)
Definition page_1000 : string := copies 1000 "p"%char.

Definition browsing (reply : outcome string) : World :=
  {| generate_content := fun _ => reply;
     page_goto := fun _ => Return tt;
     page_wait_for_load_state := fun _ => Return tt;
     page_evaluate := fun _ => Return page_1000;
     requests_get := fun _ => unreachable;
     requests_post := fun _ _ => unreachable;
     open_write := fun _ _ => unreachable;
     pdfplumber_open := fun _ => unreachable;
     py_exec := fun _ _ => unreachable |}.

(** An interpreter whose snippet prints the length of [text_input] in
    unary, under a model that answers [reply]. *)
Definition measuring (reply : outcome string) : World :=
  Agent.with_py_exec
    (fun _ text_input => Return (copies (String.length text_input) "1"%char))
    (offline reply).

(** A server that answers every GET with a CSV body, and a file system
    that accepts every write, under a model that answers [reply]. *)
Definition serving (reply : outcome string) : World :=
  {| generate_content := fun _ => reply;
     page_goto := fun _ => unreachable;
     page_wait_for_load_state := fun _ => unreachable;
     page_evaluate := fun _ => unreachable;
     requests_get := fun _ =>
       Return {| status_code := 200; text := "a,b"; content := "a,b";
                 content_type := Some "text/csv; charset=utf-8";
                 json := Raise (Exception "Expecting value: line 1 column 1 (char 0)") |};
     requests_post := fun _ _ => unreachable;
     open_write := fun _ _ => Return tt;
     pdfplumber_open := fun _ => unreachable;
     py_exec := fun _ _ => unreachable |}.

(** A PDF whose second page cannot be read. *)
Definition torn_pdf : World :=
  {| generate_content := fun _ => unreachable;
     page_goto := fun _ => unreachable;
     page_wait_for_load_state := fun _ => unreachable;
     page_evaluate := fun _ => unreachable;
     requests_get := fun _ => unreachable;
     requests_post := fun _ _ => unreachable;
     open_write := fun _ _ => unreachable;
     pdfplumber_open := fun _ =>
       Return [Return (Some "Question 1"); Raise (Exception "bad xref table");
               Return (Some "Question 3")];
     py_exec := fun _ _ => unreachable |}.

(** A session in which nothing but the model is reachable and the model
    fails, and one whose every SUBMIT is the final correct answer. *)
Definition dark_env : Env :=
  {| launch := Return tt; world_at := fun _ => offline unreachable |}.

Definition final_env : Env :=
  {| launch := Return tt;
     world_at := fun _ =>
       json_response (Return (dumps submit_action)) (VDict [("correct", VBool true)]) |}.

Definition session_scraped : Agent.Session :=
  {| Agent.current_url := VStr "https://quiz.test/q1";
     Agent.history := [StepRecord 0 "SCRAPE" "The answer is 41 + 1"] |}.

Definition email : string := "student@example.test".
Definition secret : string := "elephant".
Definition submit_reply : outcome string := Return (dumps submit_action).

Definition session_q2 : Agent.Session :=
  {| Agent.current_url := VStr "https://quiz.test/q2"; Agent.history := [] |}.

End Samples.

(* ================================================================== *)
(** ** Properties                                                      *)
(* ================================================================== *)

Import Agent.

(** *** Strings *)

Lemma length_slice_to (n : nat) (s : string) :
  String.length (slice_to n s) <= n.
Proof.
  unfold slice_to. revert s.
  induction n as [|n IH]; intros [|c s]; simpl; try lia.
  specialize (IH s). lia.
Qed.

Lemma slice_to_short (n : nat) (s : string) :
  String.length s <= n -> slice_to n s = s.
Proof.
  unfold slice_to. revert s.
  induction n as [|n IH]; intros [|c s]; simpl; intros H; try reflexivity; try lia.
  rewrite IH by lia. reflexivity.
Qed.



Lemma match_tool_text (tool : string) (name : tool_name) :
  match_tool tool = Some name <-> tool = tool_text name.
Proof.
  unfold match_tool.
  split.
  - destruct (String.eqb_spec tool "SCRAPE") as [-> | _];
      [intros [= <-]; reflexivity |].
    destruct (String.eqb_spec tool "DOWNLOAD") as [-> | _];
      [intros [= <-]; reflexivity |].
    destruct (String.eqb_spec tool "READ_PDF") as [-> | _];
      [intros [= <-]; reflexivity |].
    destruct (String.eqb_spec tool "PYTHON") as [-> | _];
      [intros [= <-]; reflexivity |].
    destruct (String.eqb_spec tool "SUBMIT") as [-> | _];
      [intros [= <-]; reflexivity |].
    discriminate.
  - intros ->. destruct name; reflexivity.
Qed.




Lemma last_entry_snoc (h : list entry) (e : entry) :
  last_entry (h ++ [e])%list = Some e.
Proof.
  induction h as [|x h IH]; [reflexivity|].
  simpl. destruct (h ++ [e])%list eqn:E; [|exact IH].
  destruct h; discriminate.
Qed.

(** *** The bounded loop *)

Section AgentProperties.

Variable json_loads : string -> outcome value.
Variable py_str : value -> string.
Variable py_upper : string -> string.

Notation agent_step := (Agent.agent_step json_loads py_str py_upper).
Notation for_loop := (Agent.for_loop json_loads py_str py_upper).
Notation loop_from := (Agent.loop_from json_loads py_str py_upper).
Notation run_agent_loop := (Agent.run_agent_loop json_loads py_str py_upper).
Notation reasoning_step := (Agent.reasoning_step json_loads).
Notation action_step := (Agent.action_step py_str py_upper).
Notation names_tool := (Agent.names_tool json_loads py_upper).
Notation submit_returns := (Agent.submit_returns json_loads py_upper).
Notation malformed := (Agent.malformed py_upper).
Notation moves_to := (Agent.moves_to json_loads py_upper).

(** The body runs for an initial segment of the indices, in order; it
    runs for all of them exactly when they run out. *)
Lemma for_loop_shape (env : Env) (email secret : string) (steps : list nat)
    (s : Session) :
  let r := for_loop env email secret steps s in
  executed r = firstn (length (executed r)) steps
  /\ length (executed r) <= length steps
  /\ match outcome_of r with
     | Exhausted => executed r = steps
     | Done | Aborted _ => 1 <= length (executed r)
     | LaunchFailed _ => False
     end.
Proof.
  revert s. induction steps as [|step rest IH]; intros s; simpl.
  - repeat split; lia.
  - destruct (agent_step (world_at env step) step email secret s) as [s'| |e];
      simpl.
    + destruct (IH s') as (P & L & O). repeat split.
      * f_equal. exact P.
      * lia.
      * destruct (outcome_of (for_loop env email secret rest s'));
          [lia | f_equal; exact O | lia | exact O].
    + repeat split; lia.
    + repeat split; lia.
Qed.

Lemma loop_from_unfold (env : Env) (email secret : string) (k : nat)
    (s : Session) :
  k < 10 ->
  loop_from env email secret k s =
  match agent_step (world_at env k) k email secret s with
  | Next s' => ran k (loop_from env email secret (S k) s')
  | Finished => {| executed := [k]; final := s; outcome_of := Done |}
  | Escaped e => {| executed := [k]; final := s; outcome_of := Aborted e |}
  end.
Proof.
  intros Hk. unfold Agent.loop_from.
  replace (10 - k) with (S (10 - S k)) by lia. reflexivity.
Qed.

(** Once the browser is up, the session is the loop from index 0. *)
Lemma run_agent_loop_from_zero (env : Env) (start_url email secret : string) :
  launch env = Return tt ->
  run_agent_loop env start_url email secret
  = loop_from env email secret 0 {| current_url := VStr start_url; history := [] |}.
Proof.
  intros H. unfold Agent.run_agent_loop. rewrite H. reflexivity.
Qed.

(** Every answer in the scope of [malformed] is no action in the sense
    of the specification, whatever tool it names. *)
Lemma malformed_is_no_action (v : value) :
  malformed v = true -> Spec.valid_action_object v = false.
Proof.
  destruct v as [ | b | z | t | l | items]; try reflexivity.
  simpl.
  destruct (lookup "tool" items) as [[ | b | z | raw | l | d]|];
    try reflexivity; try discriminate.
  destruct (match_tool (py_upper raw)); [|discriminate].
  destruct (lookup "args" items) as [[ | ? | ? | ? | ? | ?]|];
    try reflexivity; discriminate.
Qed.

(** A SUBMIT that comes back correct with a next URL leaves the [try] by
    [continue]. *)
Lemma submit_correct_continues (w : World) (email secret : string)
    (s : Session) (items : list (string * value)) (u : value) :
  submit_returns w email secret s (VDict items) ->
  lookup "correct" items = Some (VBool true) ->
  lookup "url" items = Some u ->
  truthy u = true ->
  (action <- reasoning_step w s ;; action_step w email secret s action)
  = Return (Continue u).
Proof.
  intros (args & answer & submit_url & (action & raw & Hr & Ht & Hu & Ha)
          & Hans & Hurl & Hres) Hc Hn Htr.
  rewrite Hr. simpl. unfold Agent.action_step.
  rewrite Ht. simpl. rewrite Hu, Ha. simpl.
  rewrite Hans. simpl. rewrite Hurl. simpl. rewrite Hres. simpl.
  rewrite Hc. simpl. rewrite Hn, Htr. reflexivity.
Qed.

(** C1. Every session runs the loop body at most ten times, for the
    indices 0, 1, 2, .. in order. A session that ends neither by the
    final correct answer, nor by a failed browser start, nor by an
    exception that is no [Exception], ends after exactly the ten
    iterations of [range(10)]. The function is total: no session runs
    for ever. *)
Theorem run_agent_loop_at_most_ten_steps (env : Env)
    (start_url email secret : string) :
  let r := run_agent_loop env start_url email secret in
  length (executed r) <= 10
  /\ executed r = firstn (length (executed r)) (range 10)
  /\ match outcome_of r with
     | Exhausted => executed r = range 10
     | Done | Aborted _ => 1 <= length (executed r)
     | LaunchFailed _ => executed r = []
     end.
Proof.
  unfold Agent.run_agent_loop.
  destruct (launch env) as [[]|e].
  - pose proof (for_loop_shape env email secret (range 10)
                  {| current_url := VStr start_url; history := [] |})
      as (P & L & O).
    repeat split; [exact L | exact P |].
    destruct (outcome_of _); try exact O. contradiction.
  - simpl. repeat split. lia.
Qed.

(** C2 (as the code has it). When a SUBMIT at iteration [k] comes back
    correct with a next URL, the loop goes on with iteration [k + 1] on
    the new URL and an empty history: the index is not set back, and the
    new quiz is left the [9 - k] iterations that remain of the ten. *)
Theorem submit_correct_keeps_step_counter (env : Env) (email secret : string)
    (k : nat) (s : Session) (items : list (string * value)) (u : value) :
  k < 10 ->
  submit_returns (world_at env k) email secret s (VDict items) ->
  lookup "correct" items = Some (VBool true) ->
  lookup "url" items = Some u ->
  truthy u = true ->
  let s' := {| current_url := u; history := [] |} in
  let rest := loop_from env email secret (S k) s' in
  loop_from env email secret k s = ran k rest
  /\ executed rest = firstn (length (executed rest)) (seq (S k) (9 - k))
  /\ length (executed rest) <= 9 - k.
Proof.
  intros Hk Hs Hc Hn Htr s' rest.
  split.
  - rewrite loop_from_unfold by exact Hk.
    unfold Agent.agent_step.
    rewrite (submit_correct_continues _ _ _ _ _ _ Hs Hc Hn Htr). reflexivity.
  - pose proof (for_loop_shape env email secret (seq (S k) (10 - S k)) s')
      as (P & L & _).
    rewrite length_seq in L.
    replace (10 - S k) with (9 - k) in * by lia.
    split; [exact P | exact L].
Qed.

(** *** One iteration *)

(** C3. When a SUBMIT comes back with [correct] true and a next URL [u],
    the iteration leaves the session at [u] with an empty history: the
    history is cleared and no record of the SUBMIT is appended. *)
Theorem submit_correct_advances (w : World) (step : nat) (email secret : string)
    (s : Session) (items : list (string * value)) (u : value) :
  submit_returns w email secret s (VDict items) ->
  lookup "correct" items = Some (VBool true) ->
  lookup "url" items = Some u ->
  truthy u = true ->
  agent_step w step email secret s = Next {| current_url := u; history := [] |}.
Proof.
  intros Hs Hc Hn Htr. unfold Agent.agent_step.
  rewrite (submit_correct_continues _ _ _ _ _ _ Hs Hc Hn Htr). reflexivity.
Qed.

(** C7 (as the code has it). When a SUBMIT comes back with [correct]
    false, the iteration appends exactly one record, for the tool
    SUBMIT, whose result is the first 800 characters of
    "Submission failed. Reason: <reason>" (all of it when it is no longer
    than that), and the loop goes on with the same URL. *)
Theorem submit_rejected_is_recorded (w : World) (step : nat)
    (email secret : string) (s : Session) (items : list (string * value)) :
  submit_returns w email secret s (VDict items) ->
  lookup "correct" items = Some (VBool false) ->
  let reason := match lookup "reason" items with Some r => r | None => VNone end in
  let message := "Submission failed. Reason: " ++ py_str reason in
  agent_step w step email secret s
  = Next {| current_url := current_url s;
            history := (history s ++ [StepRecord step "SUBMIT" (slice_to 800 message)])%list |}
  /\ (String.length message <= 800 -> slice_to 800 message = message).
Proof.
  intros (args & answer & submit_url & (action & raw & Hr & Ht & Hu & Ha)
          & Hans & Hurl & Hres) Hc reason message.
  split; [|apply slice_to_short].
  unfold Agent.agent_step. rewrite Hr. simpl. unfold Agent.action_step.
  rewrite Ht. simpl. rewrite Hu, Ha. simpl.
  rewrite Hans. simpl. rewrite Hurl. simpl. rewrite Hres. simpl.
  rewrite Hc. reflexivity.
Qed.

(** C5 (as the code has it). When the model's answer is not JSON, or
    decodes to something that is no object, or to an object whose tool
    field is present and no string, or to an object that names one of
    the five tools with an args field that is no mapping, the iteration
    appends one error-tagged entry and the loop goes on with the same
    URL. *)
Theorem malformed_answer_is_recorded (w : World) (step : nat)
    (email secret : string) (s : Session) (answer : string) :
  generate_content w (system_msg s) = Return answer ->
  (exists e, json_loads answer = Raise (Exception e))
  \/ (exists v, json_loads answer = Return v /\ malformed v = true) ->
  exists e,
    agent_step w step email secret s
    = Next {| current_url := current_url s;
              history := (history s ++ [ErrorRecord e])%list |}.
Proof.
  intros Hg [[e He] | [v [Hv Hm]]]; unfold Agent.agent_step, Agent.reasoning_step;
    rewrite Hg; simpl.
  - rewrite He. simpl. eexists. reflexivity.
  - rewrite Hv. simpl.
    destruct v as [ | b | z | t | l | items]; try (eexists; reflexivity).
    simpl. unfold Agent.action_step. simpl in *.
    destruct (lookup "tool" items) as [[ | b | z | raw | l | d]|];
      try discriminate; try (eexists; reflexivity).
    simpl.
    destruct (match_tool (py_upper raw)) as [name|]; [|discriminate].
    destruct (lookup "args" items) as [[ | b | z | t | l | d]|];
      try discriminate;
      destruct name; simpl; try (eexists; reflexivity);
      destruct (last_entry (history s)) as [[k t' r | err]|]; simpl;
      eexists; reflexivity.
Qed.


(** C10. When the last entry of the history is error-tagged, a PYTHON
    action raises [KeyError('result')] on reading the previous result;
    the loop records it as another error-tagged entry, and the snippet
    is not run: the iteration is the same whatever the interpreter
    would do with it. *)
Theorem python_after_error_is_not_run (w : World) (step : nat)
    (email secret : string) (s : Session) (earlier : list entry)
    (error : string) (args : value) :
  history s = (earlier ++ [ErrorRecord error])%list ->
  names_tool w s PYTHON args ->
  let after := {| current_url := current_url s;
                  history := (history s ++ [ErrorRecord "'result'"])%list |} in
  agent_step w step email secret s = Next after
  /\ forall f, agent_step (with_py_exec f w) step email secret s = Next after.
Proof.
  intros Hh (action & raw & Hr & Ht & Hu & Ha) after.
  assert (Hlast : last_entry (history s) = Some (ErrorRecord error))
    by (rewrite Hh; apply last_entry_snoc).
  split; [|intros f]; unfold Agent.agent_step.
  - rewrite Hr. simpl. unfold Agent.action_step.
    rewrite Ht. simpl. rewrite Hu, Ha. simpl.
    rewrite Hlast. reflexivity.
  - change (reasoning_step (with_py_exec f w) s) with (reasoning_step w s).
    rewrite Hr. simpl. unfold Agent.action_step.
    rewrite Ht. simpl. rewrite Hu, Ha. simpl.
    rewrite Hlast. reflexivity.
Qed.

End AgentProperties.

(** *** The adapters and the endpoint *)

Lemma try_except_returns {A : Type} (body : outcome A) (handler : string -> A) :
  contained body ->
  exists a, try_except body (fun e => Return (handler e)) = Return a.
Proof.
  intros H. destruct body as [a | [msg | msg]]; simpl.
  - exists a. reflexivity.
  - exists (handler msg). reflexivity.
  - destruct (H msg). reflexivity.
Qed.

Lemma contained_bind {A B : Type} (c : outcome A) (k : A -> outcome B) :
  contained c -> (forall a, contained (k a)) -> contained (bind c k).
Proof.
  intros Hc Hk. destruct c as [a | e]; simpl; [apply Hk|].
  intros msg H. apply (Hc msg). injection H as ->. reflexivity.
Qed.

Lemma contained_Return {A : Type} (a : A) : contained (Return a).
Proof. intros msg. discriminate. Qed.

Lemma contained_Exception {A : Type} (e : string) :
  contained (@Raise A (Exception e)).
Proof. intros msg. discriminate. Qed.

Lemma extract_pages_contained (pages : list (outcome (option string)))
    (text : string) :
  Forall contained pages -> contained (Tools.extract_pages pages text).
Proof.
  intros H. revert text.
  induction H as [|page rest Hp _ IH]; intros text; simpl.
  - apply contained_Return.
  - apply contained_bind; [exact Hp|]. intros extracted. apply IH.
Qed.

Create HintDb contained.
#[local] Hint Resolve contained_Return contained_Exception : contained.

(** In a world that fails with instances of [Exception] only, the three
    adapters that wrap the browser, the network and the PDF reader
    return a text for every input, and [submit_quiz] returns a value. *)
Lemma wrapping_adapters_return (w : World) (url filename submit_url payload : value) :
  fails_with_exceptions w ->
  (exists r, Tools.scrape_page w url = Return r)
  /\ (exists r, Tools.download_file w url filename = Return r)
  /\ (exists r, Tools.read_pdf w filename = Return r)
  /\ (exists v, Tools.submit_quiz w submit_url payload = Return v).
Proof.
  intros (Hgo & Hwait & Hev & Hget & Hpost & Hopen & Hpdf & Hpages).
  repeat split.
  - apply try_except_returns.
    repeat (apply contained_bind; [auto | intros ?]). apply contained_Return.
  - apply try_except_returns.
    apply contained_bind; [auto | intros response].
    apply contained_bind.
    { destruct filename; simpl; auto with contained. }
    intros has_dot.
    apply contained_bind.
    { destruct (negb has_dot); [|auto with contained].
      destruct filename; simpl;
        repeat match goal with |- context [if ?b then _ else _] => destruct b end;
        auto with contained. }
    intros name.
    apply contained_bind.
    { destruct name; simpl; auto with contained. }
    intros path. apply contained_bind; [auto | intros ?]. apply contained_Return.
  - apply try_except_returns.
    destruct (pdfplumber_open w filename) as [pages | e] eqn:E; simpl.
    + apply contained_bind; [|intros ?; apply contained_Return].
      apply extract_pages_contained. apply (Hpages filename). exact E.
    + intros msg H. apply (Hpdf filename msg). rewrite E.
      injection H as ->. reflexivity.
  - unfold Tools.submit_quiz.
    destruct (requests_post w submit_url payload) as [res | [e | e]] eqn:E; simpl.
    + destruct (json res); simpl; eexists; reflexivity.
    + eexists; reflexivity.
    + destruct (Hpost submit_url payload e). exact E.
Qed.

(** What [execute_python_code] does with each way a snippet can end. *)
Lemma execute_python_code_cases (w : World) (code : value) (text_input : string) :
  Tools.execute_python_code w code text_input
  = match py_exec w code text_input with
    | Return printed => Return printed
    | Raise (Exception e) => Return ("Error executing code: " ++ e)
    | Raise (BaseException e) => Raise (BaseException e)
    end.
Proof.
  unfold Tools.execute_python_code.
  destruct (py_exec w code text_input) as [printed | [e | e]]; reflexivity.
Qed.

(** [submit_quiz] hands on whatever the body decodes to. *)
Lemma submit_quiz_decoded (w : World) (submit_url payload : value)
    (res : Response) (v : value) :
  requests_post w submit_url payload = Return res ->
  json res = Return v ->
  Tools.submit_quiz w submit_url payload = Return v.
Proof.
  intros Hp Hj. unfold Tools.submit_quiz. rewrite Hp. simpl. rewrite Hj. reflexivity.
Qed.

(** C4 (where the code falls short of it). A snippet that raises
    [SystemExit] is not turned into an error text by
    [execute_python_code]: the exception leaves the adapter. A response
    whose body is the JSON array [[]] makes [submit_quiz] return a list,
    not a dict. *)
Theorem adapters_are_not_total :
  Tools.execute_python_code Samples.exiting (VStr "raise SystemExit") EmptyString
  = Raise (BaseException EmptyString)
  /\ Tools.submit_quiz Samples.array_endpoint (VStr "https://quiz.test/submit")
       (submission "a@b.test" "elephant" Samples.session0 (VStr "42"))
     = Return (VList []).
Proof.
  split; reflexivity.
Qed.

(** The [SystemExit] of such a snippet is no [Exception] for the loop
    either: it ends the session in the iteration that ran it. *)
Lemma system_exit_leaves_the_loop :
  Agent.agent_step Samples.loads Samples.str ascii_upper Samples.exiting_session 0
    Samples.email Samples.secret Samples.session0
  = Escaped (BaseException EmptyString)
  /\ outcome_of (Agent.run_agent_loop Samples.loads Samples.str ascii_upper
                   {| launch := Return tt;
                      world_at := fun _ => Samples.exiting_session |}
                   "https://quiz.test/q1" Samples.email Samples.secret)
     = Aborted (BaseException EmptyString).
Proof.
  split; reflexivity.
Qed.

(** C8. The page text [scrape_page] returns is the first 30,000
    characters of the rendered text, and the text [read_pdf] returns is
    the first 10,000 characters of the extracted text; neither is longer
    than its cap. *)
Theorem scraped_and_extracted_text_is_capped (w : World) (url filename : value) :
  (forall page_text,
      (page_goto w url ;;; page_wait_for_load_state w url ;;; page_evaluate w url)
      = Return page_text ->
      Tools.scrape_page w url = Return (slice_to 30000 page_text)
      /\ String.length (slice_to 30000 page_text) <= 30000)
  /\ (forall pages pdf_text,
         pdfplumber_open w filename = Return pages ->
         Tools.extract_pages pages EmptyString = Return pdf_text ->
         Tools.read_pdf w filename = Return (slice_to 10000 pdf_text)
         /\ String.length (slice_to 10000 pdf_text) <= 10000).
Proof.
  split.
  - intros page_text H. split; [|apply length_slice_to].
    unfold Tools.scrape_page.
    destruct (page_goto w url) as [[]|e]; [|discriminate]. simpl in *.
    destruct (page_wait_for_load_state w url) as [[]|e]; [|discriminate].
    simpl in *. rewrite H. reflexivity.
  - intros pages pdf_text Ho He. split; [|apply length_slice_to].
    unfold Tools.read_pdf. rewrite Ho. simpl. rewrite He. reflexivity.
Qed.

(** C9. A request whose secret differs from the configured one is
    answered with the 403 exception and schedules nothing; a request
    whose secret equals it schedules one agent session, on the
    request's URL, e-mail and secret, and is answered with the
    acceptance body at once. *)
Theorem start_quiz_checks_the_secret (MY_SECRET : string)
    (req : Main.QuizRequest) (tasks : list Main.Task) :
  (Main.secret req <> MY_SECRET ->
   Main.start_quiz MY_SECRET req tasks
   = (Main.HTTPException 403 "Invalid Secret Key. Access Denied.", tasks))
  /\ (Main.secret req = MY_SECRET ->
      Main.start_quiz MY_SECRET req tasks
      = (Main.Body "Agent task started successfully" "processing",
         (tasks ++ [{| Main.task_url := Main.url req;
                       Main.task_email := Main.email req;
                       Main.task_secret := Main.secret req |}])%list)).
Proof.
  unfold Main.start_quiz.
  destruct (String.eqb_spec (Main.secret req) MY_SECRET) as [E | N]; simpl;
    split; intros H; try reflexivity; contradiction.
Qed.

(* ================================================================== *)
(** ** The statements at concrete sessions                             *)
(* ================================================================== *)

Import Samples (email, secret, submit_reply).

(** The first iteration of [Samples.chain_env] is a SUBMIT that the
    endpoint answers with [Samples.correct_next]. *)
Lemma chain_env_submits :
  Agent.submit_returns Samples.loads ascii_upper (world_at Samples.chain_env 0) email secret
    Samples.session0 Samples.correct_next.
Proof.
  exists (VDict [("url", VStr "https://quiz.test/submit"); ("answer", VStr "42")]),
         (VStr "42"), (VStr "https://quiz.test/submit").
  split; [|repeat split; reflexivity].
  exists Samples.submit_action, "submit". repeat split; reflexivity.
Defined.

Lemma submit_correct_keeps_step_counter_witness :
  let rest := Agent.loop_from Samples.loads Samples.str ascii_upper Samples.chain_env
                email secret 1 Samples.session_q2 in
  Agent.loop_from Samples.loads Samples.str ascii_upper Samples.chain_env email secret 0
    Samples.session0 = ran 0 rest
  /\ executed rest = firstn (length (executed rest)) (seq 1 9)
  /\ length (executed rest) <= 9.
Proof.
  apply (submit_correct_keeps_step_counter Samples.loads Samples.str ascii_upper
           Samples.chain_env email secret 0 Samples.session0
           [("correct", VBool true); ("url", VStr "https://quiz.test/q2")]
           (VStr "https://quiz.test/q2")).
  - lia.
  - exact chain_env_submits.
  - reflexivity.
  - reflexivity.
  - reflexivity.
Defined.

(** C2, refuted as stated. In [Samples.chain_env] the SUBMIT of
    iteration 0 comes back correct with the URL of a second quiz, and no
    later action ends the session. The session then runs the indices
    0, .., 9 once each: the second quiz gets the nine iterations 1, .., 9,
    recorded under those indices, and not ten iterations from 0. *)
Lemma step_counter_is_not_reset :
  let r := Agent.run_agent_loop Samples.loads Samples.str ascii_upper Samples.chain_env
             "https://quiz.test/q1" email secret in
  let rest := Agent.loop_from Samples.loads Samples.str ascii_upper Samples.chain_env
                email secret 1 Samples.session_q2 in
  Agent.submit_returns Samples.loads ascii_upper (world_at Samples.chain_env 0) email secret
    Samples.session0 Samples.correct_next
  /\ r = ran 0 rest
  /\ outcome_of r = Exhausted
  /\ executed rest = [1; 2; 3; 4; 5; 6; 7; 8; 9]
  /\ history (final r) = map (fun k => StepRecord k "SEARCH" EmptyString) (seq 1 9)
  /\ length (executed rest) <> 10.
Proof.
  split; [exact chain_env_submits|].
  repeat split; try reflexivity.
  vm_compute. discriminate.
Qed.

Lemma submit_correct_advances_witness :
  Agent.agent_step Samples.loads Samples.str ascii_upper (world_at Samples.chain_env 0) 0
    email secret Samples.session0
  = Next {| current_url := VStr "https://quiz.test/q2"; history := [] |}.
Proof.
  apply (submit_correct_advances Samples.loads Samples.str ascii_upper
           (world_at Samples.chain_env 0) 0 email secret Samples.session0
           [("correct", VBool true); ("url", VStr "https://quiz.test/q2")]
           (VStr "https://quiz.test/q2")).
  - exact chain_env_submits.
  - reflexivity.
  - reflexivity.
  - reflexivity.
Defined.

(** A SUBMIT that the endpoint rejects with [reason]. *)
Lemma rejection_is_returned (reason : string) :
  Agent.submit_returns Samples.loads ascii_upper
    (Samples.json_response submit_reply (Samples.rejected reason)) email secret
    Samples.session0 (Samples.rejected reason).
Proof.
  exists (VDict [("url", VStr "https://quiz.test/submit"); ("answer", VStr "42")]),
         (VStr "42"), (VStr "https://quiz.test/submit").
  split; [|repeat split; reflexivity].
  exists Samples.submit_action, "submit". repeat split; reflexivity.
Defined.

Lemma submit_rejected_is_recorded_witness :
  let message := "Submission failed. Reason: wrong sum" in
  Agent.agent_step Samples.loads Samples.str ascii_upper
    (Samples.json_response submit_reply (Samples.rejected "wrong sum")) 4
    email secret Samples.session0
  = Next {| current_url := VStr "https://quiz.test/q1";
            history := [StepRecord 4 "SUBMIT" (slice_to 800 message)] |}
  /\ (String.length message <= 800 -> slice_to 800 message = message).
Proof.
  apply (submit_rejected_is_recorded Samples.loads Samples.str ascii_upper
           (Samples.json_response submit_reply (Samples.rejected "wrong sum")) 4
           email secret Samples.session0
           [("correct", VBool false); ("reason", VStr "wrong sum")]).
  - exact (rejection_is_returned "wrong sum").
  - reflexivity.
Defined.

(** C7, refuted as stated. A SUBMIT is rejected with a reason of 800
    characters. The record that is appended holds the first 800
    characters of "Submission failed. Reason: <reason>", which is not
    that text: the last 27 characters of the reason are cut off. *)
Lemma long_reason_is_cut :
  let w := Samples.json_response submit_reply (Samples.rejected Samples.long_reason) in
  let message := "Submission failed. Reason: " ++ Samples.long_reason in
  Agent.submit_returns Samples.loads ascii_upper w email secret Samples.session0
    (Samples.rejected Samples.long_reason)
  /\ exists result,
       Agent.agent_step Samples.loads Samples.str ascii_upper w 0 email secret Samples.session0
       = Next {| current_url := VStr "https://quiz.test/q1";
                 history := [StepRecord 0 "SUBMIT" result] |}
       /\ String.length result = 800
       /\ String.length message = 827
       /\ result <> message.
Proof.
  split; [exact (rejection_is_returned Samples.long_reason)|].
  exists (slice_to 800 ("Submission failed. Reason: " ++ Samples.long_reason)).
  repeat split; try (vm_compute; reflexivity).
  intros H. apply (f_equal String.length) in H. vm_compute in H. discriminate.
Qed.

Lemma malformed_answer_is_recorded_witness :
  exists e,
    Agent.agent_step Samples.loads Samples.str ascii_upper
      (Samples.offline (Return "I will scrape the page first.")) 2 email secret
      Samples.session0
    = Next {| current_url := VStr "https://quiz.test/q1";
              history := [ErrorRecord e] |}.
Proof.
  apply (malformed_answer_is_recorded Samples.loads Samples.str ascii_upper
           (Samples.offline (Return "I will scrape the page first.")) 2
           email secret Samples.session0 "I will scrape the page first.").
  - reflexivity.
  - left. exists "Expecting value: line 1 column 1 (char 0)". reflexivity.
Defined.

(** C5, refuted as stated. The model answers with the JSON text of an
    empty object, which has neither a tool name nor arguments and so is
    no action. The iteration appends an ordinary record, with the empty
    tool and the empty result, and no error-tagged entry. *)
Lemma object_without_tool_is_no_error :
  let w := Samples.offline (Return "{}") in
  let after := Agent.agent_step Samples.loads Samples.str ascii_upper w 0 email secret
                 Samples.session0 in
  generate_content w (system_msg Samples.session0) = Return "{}"
  /\ Samples.loads "{}" = Return (VDict [])
  /\ Spec.valid_action_object (VDict []) = false
  /\ after = Next {| current_url := VStr "https://quiz.test/q1";
                     history := [StepRecord 0 EmptyString EmptyString] |}
  /\ ~ (exists e, after = Next {| current_url := VStr "https://quiz.test/q1";
                                  history := [ErrorRecord e] |}).
Proof.
  repeat split; try reflexivity.
  intros [e H]. vm_compute in H. discriminate.
Qed.




Lemma python_after_error_is_not_run_witness :
  let w := Samples.offline (Return (Samples.dumps Samples.python_action)) in
  let after :=
    {| current_url := VStr "https://quiz.test/q1";
       history := (history Samples.session_after_error
                   ++ [ErrorRecord "'result'"])%list |} in
  Agent.agent_step Samples.loads Samples.str ascii_upper w 2 email secret
    Samples.session_after_error = Next after
  /\ forall f,
       Agent.agent_step Samples.loads Samples.str ascii_upper (with_py_exec f w) 2 email secret
         Samples.session_after_error = Next after.
Proof.
  apply (python_after_error_is_not_run Samples.loads Samples.str ascii_upper
           (Samples.offline (Return (Samples.dumps Samples.python_action))) 2
           email secret Samples.session_after_error
           [StepRecord 0 "SCRAPE" "Error scraping page: connection refused"]
           "Expecting value: line 1 column 1 (char 0)"
           (VDict [("code", VStr "print(6 * 7)")])).
  - reflexivity.
  - exists Samples.python_action, "Python". repeat split; reflexivity.
Defined.

Lemma scraped_and_extracted_text_is_capped_witness :
  (Tools.scrape_page Samples.rendering (VStr "https://quiz.test/q1")
   = Return (slice_to 30000 Samples.long_page)
   /\ String.length (slice_to 30000 Samples.long_page) <= 30000)
  /\ (Tools.read_pdf Samples.rendering (VStr "data_file.pdf")
      = Return (slice_to 10000
                  (Samples.pdf_page ++ newline ++ Samples.pdf_page ++ newline))
      /\ String.length
           (slice_to 10000
              (Samples.pdf_page ++ newline ++ Samples.pdf_page ++ newline))
         <= 10000).
Proof.
  destruct (scraped_and_extracted_text_is_capped Samples.rendering
              (VStr "https://quiz.test/q1") (VStr "data_file.pdf")) as [P Q].
  split.
  - apply P. reflexivity.
  - apply (Q [Return (Some Samples.pdf_page); Return None;
              Return (Some Samples.pdf_page)]); reflexivity.
Defined.

Lemma start_quiz_checks_the_secret_witness :
  Main.start_quiz "elephant"
    {| Main.email := email; Main.secret := "giraffe";
       Main.url := "https://quiz.test/q1" |} []
  = (Main.HTTPException 403 "Invalid Secret Key. Access Denied.", [])
  /\ Main.start_quiz "elephant"
       {| Main.email := email; Main.secret := "elephant";
          Main.url := "https://quiz.test/q1" |} []
     = (Main.Body "Agent task started successfully" "processing",
        [{| Main.task_url := "https://quiz.test/q1"; Main.task_email := email;
            Main.task_secret := "elephant" |}]).
Proof.
  split.
  - apply (start_quiz_checks_the_secret "elephant"
             {| Main.email := email; Main.secret := "giraffe";
                Main.url := "https://quiz.test/q1" |} []).
    simpl. discriminate.
  - apply (start_quiz_checks_the_secret "elephant"
             {| Main.email := email; Main.secret := "elephant";
                Main.url := "https://quiz.test/q1" |} []).
    reflexivity.
Defined.

(* ================================================================== *)
(** ** Further properties of the loop                                  *)
(* ================================================================== *)

Import Shape.

Lemma slice_to_slice_to (n m : nat) (s : string) :
  n <= m -> slice_to n (slice_to m s) = slice_to n s.
Proof.
  unfold slice_to. revert m s.
  induction n as [|n IH]; intros [|m] [|c s] H; simpl; try reflexivity; try lia.
  rewrite IH by lia. reflexivity.
Qed.

(** Peels the binds, branches and matches of a hypothesis that says a
    monadic computation returned. *)
Ltac returned H :=
  repeat (simpl in H;
          match type of H with
          | Raise _ = Return _ => discriminate H
          | bind ?c _ = Return _ => destruct c eqn:?
          | (if ?b then _ else _) = Return _ => destruct b eqn:?
          | match ?c with _ => _ end = Return _ => destruct c eqn:?
          end).

Section FurtherLoopProperties.

Variable json_loads : string -> outcome value.
Variable py_str : value -> string.
Variable py_upper : string -> string.

Notation agent_step := (Agent.agent_step json_loads py_str py_upper).
Notation for_loop := (Agent.for_loop json_loads py_str py_upper).
Notation loop_from := (Agent.loop_from json_loads py_str py_upper).
Notation run_agent_loop := (Agent.run_agent_loop json_loads py_str py_upper).
Notation reasoning_step := (Agent.reasoning_step json_loads).
Notation action_step := (Agent.action_step py_str py_upper).
Notation names_tool := (Agent.names_tool json_loads py_upper).
Notation submit_returns := (Agent.submit_returns json_loads py_upper).
Notation malformed := (Agent.malformed py_upper).
Notation moves_to := (Agent.moves_to json_loads py_upper).

(** The [continue] of line 106 is only reached from such a response. *)
Lemma continue_comes_from_submit (w : World) (email secret : string)
    (s : Session) (u : value) :
  (action <- reasoning_step w s ;; action_step w email secret s action)
  = Return (Continue u) ->
  moves_to w email secret s u.
Proof.
  destruct (reasoning_step w s) as [action|] eqn:Hr; simpl; [|discriminate].
  unfold Agent.action_step. intros H.
  destruct (get action "tool" (VStr EmptyString)) as [tool_field|] eqn:Ht;
    simpl in H; [|discriminate].
  destruct tool_field as [ | ? | ? | raw | ? | ?]; simpl in H; try discriminate.
  destruct (get action "args" (VDict [])) as [args|] eqn:Ha;
    simpl in H; [|discriminate].
  destruct (match_tool (py_upper raw)) as [[]|] eqn:Hm;
    try (returned H; discriminate H).
  apply match_tool_text in Hm.
  destruct (get args "answer" VNone) as [answer|] eqn:Hans;
    simpl in H; [|discriminate].
  destruct (get args "url" VNone) as [submit_url|] eqn:Hurl;
    simpl in H; [|discriminate].
  destruct (Tools.submit_quiz w submit_url (submission email secret s answer))
    as [submit_res|] eqn:Hres; simpl in H; [|discriminate].
  destruct submit_res as [ | ? | ? | ? | ? | items]; simpl in H; try discriminate.
  exists items. unfold field.
  destruct (eq_True _) eqn:Hc; simpl in H;
    [|discriminate].
  destruct (truthy _) eqn:Htr; [|discriminate].
  injection H as <-.
  repeat split; try assumption.
  exists args, answer, submit_url. repeat split; try assumption.
  exists action, raw. repeat split; assumption.
Qed.

(** One iteration either appends one entry and keeps the URL, or empties
    the history and moves to the URL of a correct submission response. *)
Lemma agent_step_next (w : World) (step : nat) (email secret : string)
    (s s' : Session) :
  agent_step w step email secret s = Next s' ->
  (exists e, history s' = (history s ++ [e])%list
             /\ current_url s' = current_url s /\ record_of step e)
  \/ (history s' = [] /\ moves_to w email secret s (current_url s')).
Proof.
  unfold Agent.agent_step.
  destruct (action <- reasoning_step w s ;; action_step w email secret s action)
    as [[tool result | u | ] | [e | e]] eqn:E; intros H; try discriminate;
    injection H as <-; simpl.
  - left. eexists. repeat split. apply length_slice_to.
  - right. split; [reflexivity|]. exact (continue_comes_from_submit _ _ _ _ _ E).
  - left. eexists. repeat split.
Qed.

Lemma for_loop_invariant (env : Env) (email secret : string) (steps : list nat)
    (s : Session) :
  Forall (fun k => k < 10) steps ->
  Forall entry_ok (history s) ->
  let r := for_loop env email secret steps s in
  Forall entry_ok (history (final r))
  /\ length (history (final r)) <= length (history s) + length (executed r).
Proof.
  revert s. induction steps as [|step rest IH]; intros s Hsteps Hs; simpl.
  - split; [exact Hs | lia].
  - inversion Hsteps as [|? ? Hstep Hrest]; subst.
    destruct (agent_step (world_at env step) step email secret s)
      as [s'| |e] eqn:E; simpl.
    + apply agent_step_next in E
        as [(e & Hh & Hu & He) | (Hh & Hu)].
      * destruct (IH s' Hrest) as (I1 & I2).
        { rewrite Hh. apply Forall_app. split; [exact Hs|].
          constructor; [|constructor].
          destruct e as [k tool result | msg]; simpl in *; [|exact I].
          destruct He as (-> & Hr). split; assumption. }
        rewrite Hh, length_app in I2. simpl in I2.
        split; [exact I1 | lia].
      * destruct (IH s' Hrest) as (I1 & I2).
        { rewrite Hh. constructor. }
        rewrite Hh in I2. simpl in I2.
        split; [exact I1 | lia].
    + split; [exact Hs | lia].
    + split; [exact Hs | lia].
Qed.

(** Where the URL of the session a loop leaves behind comes from: it is
    the URL the loop started with, or the one named by the correct
    submission response of one of its iterations, met in the session
    that the iterations before it had produced. *)
Lemma for_loop_url_origin (env : Env) (email secret : string) (steps : list nat)
    (s : Session) :
  let r := for_loop env email secret steps s in
  current_url (final r) = current_url s
  \/ exists before k after s',
       steps = (before ++ k :: after)%list
       /\ for_loop env email secret before s
          = {| executed := before; final := s'; outcome_of := Exhausted |}
       /\ moves_to (world_at env k) email secret s' (current_url (final r)).
Proof.
  revert s. induction steps as [|step rest IH]; intros s; simpl.
  - left. reflexivity.
  - destruct (agent_step (world_at env step) step email secret s)
      as [s1| |e] eqn:E; simpl; try (left; reflexivity).
    destruct (IH s1) as [I | (before & k & after & s' & Hsplit & Hrun & Hmove)].
    + apply agent_step_next in E as [(e & _ & Hu & _) | (_ & Hmove)].
      * left. rewrite I. exact Hu.
      * right. exists [], step, rest, s. repeat split.
        rewrite I. exact Hmove.
    + right. exists (step :: before), k, after, s'. repeat split.
      * simpl. rewrite Hsplit. reflexivity.
      * simpl. rewrite E, Hrun. reflexivity.
      * exact Hmove.
Qed.

Lemma range_below_ten : Forall (fun k => k < 10) (range 10).
Proof.
  apply Forall_forall. intros k H. apply in_seq in H. lia.
Qed.

(** X1. Whatever the model, the pages and the tools do, the history a
    session is left with holds at most one entry per iteration that
    ran, so at most ten, and each record in it carries a loop index
    below 10 and a result of at most 800 characters. *)
Theorem history_holds_bounded_records (env : Env)
    (start_url email secret : string) :
  let r := run_agent_loop env start_url email secret in
  Forall entry_ok (history (final r))
  /\ length (history (final r)) <= length (executed r)
  /\ length (history (final r)) <= 10.
Proof.
  unfold Agent.run_agent_loop.
  destruct (launch env) as [[]|e]; simpl; [|repeat split; [constructor | lia | lia]].
  pose proof (for_loop_invariant env email secret (range 10)
                {| current_url := VStr start_url; history := [] |}
                range_below_ten (Forall_nil _)) as (I1 & I2).
  pose proof (for_loop_shape json_loads py_str py_upper env email secret (range 10)
                {| current_url := VStr start_url; history := [] |})
    as (_ & L & _).
  simpl in I2, L. repeat split; [exact I1 | exact I2 | lia].
Qed.

(** X2. The URL a session is left with is the start URL, or it comes
    from a correct submission: some iteration [k] of the session was a
    SUBMIT, made in the session that the iterations before [k] had
    produced, whose response dict has [correct == True] and holds that
    URL, a truthy value, under [url]. *)
Theorem current_url_comes_from_a_correct_submit (env : Env)
    (start_url email secret : string) :
  let s0 := {| current_url := VStr start_url; history := [] |} in
  let r := run_agent_loop env start_url email secret in
  current_url (final r) = VStr start_url
  \/ exists before k after s items,
       range 10 = (before ++ k :: after)%list
       /\ for_loop env email secret before s0
          = {| executed := before; final := s; outcome_of := Exhausted |}
       /\ submit_returns (world_at env k) email secret s (VDict items)
       /\ eq_True (field items "correct") = true
       /\ field items "url" = current_url (final r)
       /\ truthy (current_url (final r)) = true.
Proof.
  unfold Agent.run_agent_loop.
  destruct (launch env) as [[]|e]; simpl; [|left; reflexivity].
  destruct (for_loop_url_origin env email secret (range 10)
              {| current_url := VStr start_url; history := [] |})
    as [I | (before & k & after & s & Hsplit & Hrun & items & Hs & Hc & Hu & Ht)].
  - left. exact I.
  - right. exists before, k, after, s, items. repeat split; assumption.
Qed.

(** The body of the [try] in an iteration that is a SUBMIT answered with
    a dict. *)
Lemma submit_body (w : World) (email secret : string) (s : Session)
    (items : list (string * value)) :
  submit_returns w email secret s (VDict items) ->
  (action <- reasoning_step w s ;; action_step w email secret s action)
  = if eq_True (field items "correct") then
      if truthy (field items "url") then Return (Continue (field items "url"))
      else Return Break
    else Return (Observe "SUBMIT"
                   ("Submission failed. Reason: " ++ py_str (field items "reason"))).
Proof.
  intros (args & answer & submit_url & (action & raw & Hr & Ht & Hu & Ha)
          & Hans & Hurl & Hres).
  rewrite Hr. simpl. unfold Agent.action_step.
  rewrite Ht. simpl. rewrite Hu, Ha. simpl.
  rewrite Hans. simpl. rewrite Hurl. simpl. rewrite Hres. simpl.
  unfold field.
  destruct (eq_True _); simpl; [|reflexivity].
  destruct (truthy _); reflexivity.
Qed.

(** X3. A SUBMIT that comes back correct without a next URL (no [url]
    key, [null] or the empty text) ends the session at once: the
    iteration is the last one, and the session is left as it was before
    it, with its history neither cleared nor extended. *)
Theorem final_correct_answer_ends_the_session (env : Env)
    (email secret : string) (k : nat) (s : Session)
    (items : list (string * value)) :
  k < 10 ->
  submit_returns (world_at env k) email secret s (VDict items) ->
  eq_True (field items "correct") = true ->
  truthy (field items "url") = false ->
  agent_step (world_at env k) k email secret s = Finished
  /\ loop_from env email secret k s
     = {| executed := [k]; final := s; outcome_of := Done |}.
Proof.
  intros Hk Hs Hc Hu.
  assert (E : agent_step (world_at env k) k email secret s = Finished).
  { unfold Agent.agent_step. rewrite (submit_body _ _ _ _ _ Hs), Hc, Hu.
    reflexivity. }
  split; [exact E|].
  rewrite (loop_from_unfold json_loads py_str py_upper) by exact Hk.
  rewrite E. reflexivity.
Qed.

(** A response dict without [correct] and [reason] keys. *)
Lemma submit_not_true_failure_aux (w : World) (step : nat)
    (email secret : string) (s : Session) (items : list (string * value)) :
  submit_returns w email secret s (VDict items) ->
  lookup "correct" items = None ->
  lookup "reason" items = None ->
  agent_step w step email secret s
  = Next {| current_url := current_url s;
            history := (history s ++
                        [StepRecord step "SUBMIT"
                           (slice_to 800 ("Submission failed. Reason: "
                                          ++ py_str VNone))])%list |}.
Proof.
  intros Hs Hc Hr. unfold Agent.agent_step.
  rewrite (submit_body _ _ _ _ _ Hs). unfold field. rewrite Hc, Hr. reflexivity.
Qed.

(** X4. Only a [correct] that equals [True] counts. When the response
    dict has no [correct] key, or any other value under it (the text
    "true", say), the SUBMIT is recorded as failed, with the first 800
    characters of "Submission failed. Reason: <reason>", and the loop
    goes on with the same URL. *)
Theorem submit_not_true_is_a_failure (w : World) (step : nat)
    (email secret : string) (s : Session) (items : list (string * value)) :
  submit_returns w email secret s (VDict items) ->
  eq_True (field items "correct") = false ->
  agent_step w step email secret s
  = Next {| current_url := current_url s;
            history := (history s ++
                        [StepRecord step "SUBMIT"
                           (slice_to 800 ("Submission failed. Reason: "
                                          ++ py_str (field items "reason")))])%list |}.
Proof.
  intros Hs Hc. unfold Agent.agent_step.
  rewrite (submit_body _ _ _ _ _ Hs), Hc. reflexivity.
Qed.

(** X5. When the POST of a SUBMIT fails with an exception, or its
    response is not JSON, the step is recorded as a failed submission
    whose reason is [str(None)]: neither the exception text nor the
    status and body of the response reach the history. *)
Theorem submit_transport_error_hides_the_cause (w : World) (step : nat)
    (email secret : string) (s : Session) (args answer submit_url : value) :
  names_tool w s SUBMIT args ->
  get args "answer" VNone = Return answer ->
  get args "url" VNone = Return submit_url ->
  (exists e, requests_post w submit_url (submission email secret s answer)
             = Raise (Exception e))
  \/ (exists res x, requests_post w submit_url (submission email secret s answer)
                    = Return res /\ json res = Raise x) ->
  agent_step w step email secret s
  = Next {| current_url := current_url s;
            history := (history s ++
                        [StepRecord step "SUBMIT"
                           (slice_to 800 ("Submission failed. Reason: "
                                          ++ py_str VNone))])%list |}.
Proof.
  intros Hn Hans Hurl [[e He] | (res & x & Hp & Hj)].
  - apply (submit_not_true_failure_aux w step email secret s
             [("error", VStr e)]); [|reflexivity|reflexivity].
    exists args, answer, submit_url. repeat split; try assumption.
    unfold Tools.submit_quiz. rewrite He. reflexivity.
  - apply (submit_not_true_failure_aux w step email secret s
             [("status", VInt (status_code res)); ("text", VStr (text res))]);
      [|reflexivity|reflexivity].
    exists args, answer, submit_url. repeat split; try assumption.
    unfold Tools.submit_quiz. rewrite Hp. simpl. rewrite Hj. reflexivity.
Qed.

(** X6. When the endpoint answers a SUBMIT with JSON that is no object
    (an array, a text, a number, [null]), reading [correct] off the
    response raises, and the step is recorded as an error-tagged entry
    that names the type of the response. *)
Theorem submit_non_object_response_is_an_error (w : World) (step : nat)
    (email secret : string) (s : Session) (args answer submit_url : value)
    (res : Response) (v : value) :
  names_tool w s SUBMIT args ->
  get args "answer" VNone = Return answer ->
  get args "url" VNone = Return submit_url ->
  requests_post w submit_url (submission email secret s answer) = Return res ->
  json res = Return v ->
  (forall items, v <> VDict items) ->
  agent_step w step email secret s
  = Next {| current_url := current_url s;
            history := (history s ++
                        [ErrorRecord ("'" ++ type_name v
                                      ++ "' object has no attribute 'get'")])%list |}.
Proof.
  intros (action & raw & Hr & Ht & Hu & Ha) Hans Hurl Hp Hj Hv.
  unfold Agent.agent_step. rewrite Hr. simpl. unfold Agent.action_step.
  rewrite Ht. simpl. rewrite Hu, Ha. simpl.
  rewrite Hans. simpl. rewrite Hurl. simpl.
  unfold Tools.submit_quiz. rewrite Hp. simpl. rewrite Hj. simpl.
  destruct v as [ | ? | ? | ? | ? | items]; try reflexivity.
  destruct (Hv items). reflexivity.
Qed.

Lemma for_loop_model_down (env : Env) (email secret : string)
    (msg : nat -> string) (steps : list nat) (s : Session) :
  (forall k p, In k steps ->
               generate_content (world_at env k) p = Raise (Exception (msg k))) ->
  for_loop env email secret steps s
  = {| executed := steps;
       final := {| current_url := current_url s;
                   history := (history s
                               ++ map (fun k => ErrorRecord (msg k)) steps)%list |};
       outcome_of := Exhausted |}.
Proof.
  revert s. induction steps as [|step rest IH]; intros s H; simpl.
  - rewrite app_nil_r. destruct s. reflexivity.
  - unfold Agent.agent_step, Agent.reasoning_step.
    rewrite (H step (system_msg s)) by (left; reflexivity). simpl.
    rewrite IH by (intros k p Hk; apply H; right; exact Hk).
    unfold ran. simpl. rewrite <- app_assoc. reflexivity.
Qed.

(** X7. A model that fails with an exception in every iteration does
    not stop the session early: all ten iterations run, each appends
    the text of its exception as an error-tagged entry, the URL stays
    the start URL, and the session ends by exhaustion. *)
Theorem failing_model_fills_the_history (env : Env)
    (start_url email secret : string) (msg : nat -> string) :
  launch env = Return tt ->
  (forall k p, k < 10 ->
               generate_content (world_at env k) p = Raise (Exception (msg k))) ->
  run_agent_loop env start_url email secret
  = {| executed := range 10;
       final := {| current_url := VStr start_url;
                   history := map (fun k => ErrorRecord (msg k)) (range 10) |};
       outcome_of := Exhausted |}.
Proof.
  intros Hl H. unfold Agent.run_agent_loop. rewrite Hl.
  rewrite (for_loop_model_down env email secret msg); [reflexivity|].
  intros k p Hk. apply H. apply in_seq in Hk. lia.
Qed.

(** The body of the [try] in an iteration that is a PYTHON whose
    previous result reads [previous]. *)
Lemma python_body (w : World) (email secret : string) (s : Session)
    (args code : value) (previous : string) :
  names_tool w s PYTHON args ->
  get args "code" VNone = Return code ->
  match last_entry (history s) with
  | Some item => item_result item
  | None => Return EmptyString
  end = Return previous ->
  (action <- reasoning_step w s ;; action_step w email secret s action)
  = (result <- Tools.execute_python_code w code previous ;;
     Return (Observe "PYTHON" result)).
Proof.
  intros (action & raw & Hr & Ht & Hu & Ha) Hc Hp.
  rewrite Hr. simpl. unfold Agent.action_step.
  rewrite Ht. simpl. rewrite Hu, Ha. simpl.
  rewrite Hp. simpl. rewrite Hc. reflexivity.
Qed.

Lemma python_step (w : World) (step : nat) (email secret : string) (s : Session)
    (args code : value) (previous : string) :
  names_tool w s PYTHON args ->
  get args "code" VNone = Return code ->
  match last_entry (history s) with
  | Some item => item_result item
  | None => Return EmptyString
  end = Return previous ->
  agent_step w step email secret s
  = python_outcome step s (py_exec w code previous).
Proof.
  intros Hn Hc Hp. unfold Agent.agent_step.
  rewrite (python_body _ _ _ _ _ _ _ Hn Hc Hp).
  unfold Tools.execute_python_code, python_outcome.
  destruct (py_exec w code previous) as [printed | [e | e]]; reflexivity.
Qed.

(** X8. A PYTHON action runs its snippet on the result text of the
    latest record, or on the empty text when the history is empty. What
    the snippet printed, or the text "Error executing code: ..." when
    it raised an [Exception], is stored as an ordinary PYTHON record cut
    to 800 characters, so a failing snippet is not a soft error of the
    loop; only an exception outside [Exception] ends the session. *)
Theorem python_runs_on_the_latest_result (w : World) (step : nat)
    (email secret : string) (s : Session) (args code : value)
    (previous : string) :
  names_tool w s PYTHON args ->
  get args "code" VNone = Return code ->
  (history s = [] /\ previous = EmptyString)
  \/ (exists earlier k tool,
         history s = (earlier ++ [StepRecord k tool previous])%list) ->
  agent_step w step email secret s
  = python_outcome step s (py_exec w code previous).
Proof.
  intros Hn Hc Hh. apply (python_step w step email secret s args code previous Hn Hc).
  destruct Hh as [[Hh ->] | (earlier & k & tool & Hh)]; rewrite Hh.
  - reflexivity.
  - rewrite last_entry_snoc. reflexivity.
Qed.

Lemma cap_800_below_30000 : 800 <= 30000.
Proof. apply Nat.leb_le. vm_compute. reflexivity. Qed.

(** X9. A PYTHON action that follows a SCRAPE does not get the page: it
    gets the first 800 characters of the page text, which is all the
    SCRAPE record keeps of the up to 30,000 characters the adapter
    returned. *)
Theorem python_after_scrape_gets_800_characters (w1 w2 : World) (step : nat)
    (email secret : string) (s : Session) (args1 target : value)
    (page : string) (args2 code : value) :
  let s1 := {| current_url := current_url s;
               history := (history s ++
                           [StepRecord step "SCRAPE" (slice_to 800 page)])%list |} in
  names_tool w1 s SCRAPE args1 ->
  get args1 "url" (current_url s) = Return target ->
  page_goto w1 target = Return tt ->
  page_wait_for_load_state w1 target = Return tt ->
  page_evaluate w1 target = Return page ->
  names_tool w2 s1 PYTHON args2 ->
  get args2 "code" VNone = Return code ->
  agent_step w1 step email secret s = Next s1
  /\ agent_step w2 (S step) email secret s1
     = python_outcome (S step) s1 (py_exec w2 code (slice_to 800 page)).
Proof.
  intros s1 (action & raw & Hr & Ht & Hu & Ha) Hurl Hgo Hwait Hev Hn Hc.
  assert (E : (action <- reasoning_step w1 s ;; action_step w1 email secret s action)
              = Return (Observe "SCRAPE" (slice_to 30000 page))).
  { rewrite Hr. simpl. unfold Agent.action_step.
    rewrite Ht. simpl. rewrite Hu, Ha. simpl. rewrite Hurl. simpl.
    unfold Tools.scrape_page. rewrite Hgo. simpl. rewrite Hwait. simpl.
    rewrite Hev. reflexivity. }
  split.
  - unfold Agent.agent_step. rewrite E.
    rewrite (slice_to_slice_to 800 30000 page cap_800_below_30000).
    reflexivity.
  - apply (python_step w2 (S step) email secret s1 args2 code _ Hn Hc).
    unfold s1. simpl. rewrite last_entry_snoc. reflexivity.
Qed.

Lemma last3_snoc3 (older : list entry) (a b c : entry) :
  last3 (older ++ [a; b; c]) = [a; b; c].
Proof.
  unfold last3. rewrite length_app. simpl.
  replace (length older + 3 - 3) with (length older + 0) by lia.
  rewrite skipn_app, Nat.add_0_r, skipn_all.
  replace (length older - length older) with 0 by lia. reflexivity.
Qed.

(** X10. The prompt carries at most three entries, and they are the
    latest ones of the history; so the model's answer cannot depend on
    anything older: two sessions at the same URL whose histories end
    with the same three entries get the same answer. *)
Theorem prompt_shows_the_last_three_entries (w : World) (s : Session)
    (url : value) (older1 older2 : list entry) (a b c : entry) :
  length (prompt_history (system_msg s)) <= 3
  /\ (exists older, history s = (older ++ prompt_history (system_msg s))%list)
  /\ reasoning_step w {| current_url := url;
                         history := (older1 ++ [a; b; c])%list |}
     = reasoning_step w {| current_url := url;
                           history := (older2 ++ [a; b; c])%list |}.
Proof.
  repeat split.
  - simpl. unfold last3. rewrite length_skipn. lia.
  - exists (firstn (length (history s) - 3) (history s)).
    simpl. unfold last3. symmetry. apply firstn_skipn.
  - unfold Agent.reasoning_step, system_msg. simpl.
    rewrite !last3_snoc3. reflexivity.
Qed.

End FurtherLoopProperties.

(* ================================================================== *)
(** ** Further properties of the adapters and the endpoint             *)
(* ================================================================== *)

Lemma append_assoc (a b c : string) : (a ++ b) ++ c = a ++ (b ++ c).
Proof.
  induction a as [|x a IH]; simpl; [reflexivity|]. rewrite IH. reflexivity.
Qed.

Lemma prefix_empty (s : string) : prefix EmptyString s = true.
Proof. destruct s; reflexivity. Qed.

Lemma prefix_append (f x : string) : prefix f (f ++ x) = true.
Proof.
  induction f as [|c f IH]; simpl; [apply prefix_empty|].
  destruct (ascii_dec c c) as [_ | N]; [exact IH | destruct N; reflexivity].
Qed.

Lemma prefix_refl (f : string) : prefix f f = true.
Proof.
  induction f as [|c f IH]; simpl; [reflexivity|].
  destruct (ascii_dec c c) as [_ | N]; [exact IH | destruct N; reflexivity].
Qed.

Lemma contains_append (needle a b : string) :
  contains needle b = true -> contains needle (a ++ b) = true.
Proof.
  intros H. induction a as [|c a IH]; simpl; [exact H|].
  rewrite IH. apply orb_true_r.
Qed.

(** X11. When [download_file] reports success for a file name given as
    text, the response was written under the reported path, and that
    path always has a dot in it: it is the name asked for when that has
    one, and otherwise the name followed by ".pdf", ".csv" or ".txt". *)
Theorem download_file_saves_under_a_dotted_name (w : World) (url : value)
    (f r : string) :
  Tools.download_file w url (VStr f) = Return r ->
  prefix "Success" r = true ->
  exists response path,
    requests_get w url = Return response
    /\ open_write w path (content response) = Return tt
    /\ r = "Success. File saved to " ++ path
    /\ In path [f; f ++ ".pdf"; f ++ ".csv"; f ++ ".txt"]
    /\ prefix f path = true
    /\ contains "." path = true
    /\ (contains "." f = true -> path = f).
Proof.
  unfold Tools.download_file. intros H Hp.
  destruct (requests_get w url) as [response | [e | e]]; simpl in H;
    [ | injection H as <-; discriminate Hp | discriminate H].
  exists response.
  destruct (contains "." f) eqn:D; simpl in H.
  - destruct (open_write w f (content response)) as [[] | [e | e]] eqn:O;
      simpl in H; [ | injection H as <-; discriminate Hp | discriminate H].
    injection H as <-. exists f.
    repeat split; [exact O | left; reflexivity | apply prefix_refl | exact D].
  - assert (Dot : forall ext, contains "." ext = true ->
                              contains "." (f ++ ext) = true)
      by (intros ext; apply contains_append).
    destruct (contains "pdf" _); [|destruct (contains "csv" _)]; simpl in H;
      match type of H with
      | context [open_write w (f ++ ?ext) _] =>
          destruct (open_write w (f ++ ext) (content response))
            as [[] | [e | e]] eqn:O; simpl in H;
          [ | injection H as <-; discriminate Hp | discriminate H];
          injection H as <-; exists (f ++ ext);
          repeat split;
          [ exact O | simpl; tauto | apply prefix_append
          | apply Dot; reflexivity | discriminate ]
      end.
Qed.

(** X12. A file name that is no text (the model sent [null], a number,
    a list, an object) never leads to a download: whatever the server
    answers, [download_file] returns an error text and no file is
    written, the outcome being the same for every file system. *)
Theorem download_file_rejects_a_name_that_is_no_text (w : World)
    (url filename : value) :
  (forall t, filename <> VStr t) ->
  contained (requests_get w url) ->
  exists e,
    forall write,
      Tools.download_file
        {| generate_content := generate_content w;
           page_goto := page_goto w;
           page_wait_for_load_state := page_wait_for_load_state w;
           page_evaluate := page_evaluate w;
           requests_get := requests_get w;
           requests_post := requests_post w;
           open_write := write;
           pdfplumber_open := pdfplumber_open w;
           py_exec := py_exec w |} url filename
      = Return ("Error downloading: " ++ e).
Proof.
  intros Hf Hc. unfold Tools.download_file. simpl.
  destruct (requests_get w url) as [response | [e | e]] eqn:E; simpl.
  - destruct filename as [ | ? | ? | t | l | items]; simpl;
      try (eexists; intros write; reflexivity).
    + destruct (Hf t). reflexivity.
    + destruct (existsb _ l); simpl;
        repeat match goal with
               | |- context [if ?b then _ else _] => destruct b
               end; simpl; eexists; intros write; reflexivity.
    + destruct (lookup "." items); simpl;
        repeat match goal with
               | |- context [if ?b then _ else _] => destruct b
               end; simpl; eexists; intros write; reflexivity.
  - eexists. intros write. reflexivity.
  - destruct (Hc e). reflexivity.
Qed.

Lemma extract_pages_all (extracted : list (option string)) (text : string) :
  Tools.extract_pages (map Return extracted) text
  = Return (text ++ lines (texts_of extracted)).
Proof.
  revert text. induction extracted as [|x rest IH]; intros text; simpl.
  - f_equal. induction text as [|c text IHt]; simpl; [reflexivity|].
    rewrite <- IHt. reflexivity.
  - rewrite IH. destruct x as [[|c t]|]; simpl; try reflexivity.
    f_equal. rewrite append_assoc. f_equal. simpl. f_equal.
    apply (append_assoc t newline).
Qed.

Lemma extract_pages_failing (before : list (option string)) (x : exn)
    (rest : list (outcome (option string))) (text : string) :
  Tools.extract_pages (map Return before ++ Raise x :: rest)%list text = Raise x.
Proof.
  revert text. induction before as [|p before IH]; intros text; simpl;
    [reflexivity|]. apply IH.
Qed.

(** X13. For a PDF whose pages all extract, [read_pdf] returns the first
    10,000 characters of the texts of the pages that have text, each
    followed by a newline, in page order; pages without text ([None] or
    the empty text) leave no trace, not even an empty line. *)
Theorem read_pdf_joins_the_pages_with_text (w : World) (filename : value)
    (extracted : list (option string)) :
  pdfplumber_open w filename = Return (map Return extracted) ->
  Tools.read_pdf w filename
  = Return (slice_to 10000 (lines (texts_of extracted))).
Proof.
  intros H. unfold Tools.read_pdf. rewrite H. simpl.
  rewrite extract_pages_all. reflexivity.
Qed.

(** X14. One page whose extraction raises an [Exception] costs the whole
    document: [read_pdf] returns the error text of that page and nothing
    of the pages before or after it. *)
Theorem read_pdf_gives_up_on_a_failing_page (w : World) (filename : value)
    (before : list (option string)) (e : string)
    (rest : list (outcome (option string))) :
  pdfplumber_open w filename
  = Return (map Return before ++ Raise (Exception e) :: rest)%list ->
  Tools.read_pdf w filename = Return ("Error reading PDF: " ++ e).
Proof.
  intros H. unfold Tools.read_pdf. rewrite H. simpl.
  rewrite extract_pages_failing. reflexivity.
Qed.

(** X15. Every agent task that [start_quiz] adds carries the configured
    secret, and the URL and e-mail of the request; the tasks that were
    already there are kept, in their order, before it. *)
Theorem start_quiz_tasks_carry_the_secret (MY_SECRET : string)
    (req : Main.QuizRequest) (tasks : list Main.Task) :
  let after := snd (Main.start_quiz MY_SECRET req tasks) in
  (after = tasks
   \/ after = (tasks ++ [{| Main.task_url := Main.url req;
                            Main.task_email := Main.email req;
                            Main.task_secret := MY_SECRET |}])%list)
  /\ (forall t, In t after -> In t tasks \/ Main.task_secret t = MY_SECRET).
Proof.
  unfold Main.start_quiz.
  destruct (String.eqb_spec (Main.secret req) MY_SECRET) as [E | N]; simpl.
  - rewrite E. split; [right; reflexivity|].
    intros t Ht. apply in_app_or in Ht as [Ht | [<- | []]];
      [left; exact Ht | right; reflexivity].
  - split; [left; reflexivity|]. intros t Ht. left. exact Ht.
Qed.

Section FurtherStepProperties.

Variable json_loads : string -> outcome value.
Variable py_str : value -> string.
Variable py_upper : string -> string.

(** X16. A DOWNLOAD action that names no file saves under "data_file"
    with an extension taken from the content type of the response:
    the default name has no dot, so one of ".pdf", ".csv" and ".txt" is
    always added, and the record reports the path. *)
Theorem download_without_a_name_saves_data_file (w : World) (step : nat)
    (email secret : string) (s : Session) (items : list (string * value))
    (response : Response) :
  Agent.names_tool json_loads py_upper w s DOWNLOAD (VDict items) ->
  lookup "filename" items = None ->
  requests_get w (field items "url") = Return response ->
  (forall path, open_write w path (content response) = Return tt) ->
  exists ext,
    In ext [".pdf"; ".csv"; ".txt"]
    /\ Agent.agent_step json_loads py_str py_upper w step email secret s
       = Next {| current_url := current_url s;
                 history := (history s ++
                             [StepRecord step "DOWNLOAD"
                                ("Success. File saved to data_file" ++ ext)])%list |}.
Proof.
  intros (action & raw & Hr & Ht & Hu & Ha) Hf Hg Hw.
  assert (E : forall ext,
             Tools.download_file w (field items "url") (VStr "data_file")
             = Return ("Success. File saved to data_file" ++ ext) ->
             Agent.agent_step json_loads py_str py_upper w step email secret s
             = Next {| current_url := current_url s;
                       history := (history s ++
                                   [StepRecord step "DOWNLOAD"
                                      (slice_to 800
                                         ("Success. File saved to data_file"
                                          ++ ext))])%list |}).
  { intros ext Hd. unfold Agent.agent_step. rewrite Hr. simpl.
    unfold Agent.action_step. rewrite Ht. simpl. rewrite Hu, Ha. simpl.
    unfold field in Hd. rewrite Hf. simpl.
    destruct (lookup "url" items); rewrite Hd; reflexivity. }
  unfold Tools.download_file in E. rewrite Hg in E. simpl in E.
  destruct (contains "pdf" _); [|destruct (contains "csv" _)]; simpl in E;
    rewrite Hw in E; simpl in E.
  - exists ".pdf". split; [simpl; tauto|]. apply (E ".pdf"). reflexivity.
  - exists ".csv". split; [simpl; tauto|]. apply (E ".csv"). reflexivity.
  - exists ".txt". split; [simpl; tauto|]. apply (E ".txt"). reflexivity.
Qed.

End FurtherStepProperties.

(* ================================================================== *)
(** ** The further properties at concrete sessions                     *)
(* ================================================================== *)

(** A SUBMIT that the endpoint answers with the JSON value [v]. *)
Lemma endpoint_answer_is_returned (v : value) :
  Agent.submit_returns Samples.loads ascii_upper (Samples.json_response submit_reply v)
    email secret Samples.session0 v.
Proof.
  exists (VDict [("url", VStr "https://quiz.test/submit"); ("answer", VStr "42")]),
         (VStr "42"), (VStr "https://quiz.test/submit").
  split; [|repeat split; reflexivity].
  exists Samples.submit_action, "submit". repeat split; reflexivity.
Defined.

Lemma submit_action_is_named (w : World) (s : Session) :
  generate_content w (system_msg s) = submit_reply ->
  Agent.names_tool Samples.loads ascii_upper w s SUBMIT
    (VDict [("url", VStr "https://quiz.test/submit"); ("answer", VStr "42")]).
Proof.
  intros H. exists Samples.submit_action, "submit".
  unfold Agent.reasoning_step. rewrite H. repeat split; reflexivity.
Defined.

Lemma final_correct_answer_ends_the_session_witness :
  Agent.agent_step Samples.loads Samples.str ascii_upper (world_at Samples.final_env 3) 3
    email secret Samples.session0 = Finished
  /\ Agent.loop_from Samples.loads Samples.str ascii_upper Samples.final_env email secret 3
       Samples.session0
     = {| executed := [3]; final := Samples.session0; outcome_of := Done |}.
Proof.
  apply (final_correct_answer_ends_the_session Samples.loads Samples.str ascii_upper
           Samples.final_env email secret 3 Samples.session0
           [("correct", VBool true)]).
  - lia.
  - exact (endpoint_answer_is_returned (VDict [("correct", VBool true)])).
  - reflexivity.
  - reflexivity.
Defined.

Lemma submit_not_true_is_a_failure_witness :
  Agent.agent_step Samples.loads Samples.str ascii_upper
    (Samples.json_response submit_reply
       (VDict [("correct", VStr "true"); ("reason", VStr "checked")]))
    5 email secret Samples.session0
  = Next {| current_url := VStr "https://quiz.test/q1";
            history := [StepRecord 5 "SUBMIT"
                          (slice_to 800 "Submission failed. Reason: checked")] |}.
Proof.
  apply (submit_not_true_is_a_failure Samples.loads Samples.str ascii_upper
           (Samples.json_response submit_reply
              (VDict [("correct", VStr "true"); ("reason", VStr "checked")]))
           5 email secret Samples.session0
           [("correct", VStr "true"); ("reason", VStr "checked")]).
  - exact (endpoint_answer_is_returned
             (VDict [("correct", VStr "true"); ("reason", VStr "checked")])).
  - reflexivity.
Defined.

Lemma submit_transport_error_hides_the_cause_witness :
  Agent.agent_step Samples.loads Samples.str ascii_upper (Samples.offline submit_reply) 1
    email secret Samples.session0
  = Next {| current_url := VStr "https://quiz.test/q1";
            history := [StepRecord 1 "SUBMIT"
                          (slice_to 800 "Submission failed. Reason: None")] |}.
Proof.
  apply (submit_transport_error_hides_the_cause Samples.loads Samples.str ascii_upper
           (Samples.offline submit_reply) 1 email secret Samples.session0
           (VDict [("url", VStr "https://quiz.test/submit"); ("answer", VStr "42")])
           (VStr "42") (VStr "https://quiz.test/submit")).
  - apply submit_action_is_named. reflexivity.
  - reflexivity.
  - reflexivity.
  - left. exists "connection refused". reflexivity.
Defined.

Lemma submit_non_object_response_is_an_error_witness :
  Agent.agent_step Samples.loads Samples.str ascii_upper
    (Samples.answering submit_reply 200 "[]" (Return (VList []))) 1
    email secret Samples.session0
  = Next {| current_url := VStr "https://quiz.test/q1";
            history := [ErrorRecord "'list' object has no attribute 'get'"] |}.
Proof.
  apply (submit_non_object_response_is_an_error Samples.loads Samples.str ascii_upper
           (Samples.answering submit_reply 200 "[]" (Return (VList []))) 1
           email secret Samples.session0
           (VDict [("url", VStr "https://quiz.test/submit"); ("answer", VStr "42")])
           (VStr "42") (VStr "https://quiz.test/submit")
           {| status_code := 200; text := "[]"; content := "[]";
              content_type := Some "application/json";
              json := Return (VList []) |}
           (VList [])).
  - apply submit_action_is_named. reflexivity.
  - reflexivity.
  - reflexivity.
  - reflexivity.
  - reflexivity.
  - intros items. discriminate.
Defined.

Lemma failing_model_fills_the_history_witness :
  Agent.run_agent_loop Samples.loads Samples.str ascii_upper Samples.dark_env
    "https://quiz.test/q1" email secret
  = {| executed := range 10;
       final := {| current_url := VStr "https://quiz.test/q1";
                   history := map (fun _ => ErrorRecord "connection refused")
                                  (range 10) |};
       outcome_of := Exhausted |}.
Proof.
  apply (failing_model_fills_the_history Samples.loads Samples.str ascii_upper
           Samples.dark_env "https://quiz.test/q1" email secret
           (fun _ => "connection refused")).
  - reflexivity.
  - intros k p _. reflexivity.
Defined.

Lemma python_action_is_named (load : string -> outcome value) (w : World)
    (s : Session) :
  generate_content w (system_msg s) = Return (Samples.dumps Samples.python_action) ->
  load (Samples.dumps Samples.python_action) = Return Samples.python_action ->
  Agent.names_tool load ascii_upper w s PYTHON (VDict [("code", VStr "print(6 * 7)")]).
Proof.
  intros H L. exists Samples.python_action, "Python".
  unfold Agent.reasoning_step. rewrite H. cbn [bind]. rewrite L.
  repeat split; reflexivity.
Defined.

Lemma python_runs_on_the_latest_result_witness :
  Agent.agent_step Samples.loads Samples.str ascii_upper
    (Samples.measuring (Return (Samples.dumps Samples.python_action))) 1
    email secret Samples.session_scraped
  = python_outcome 1 Samples.session_scraped
      (Return (Samples.copies (String.length "The answer is 41 + 1") "1"%char)).
Proof.
  apply (python_runs_on_the_latest_result Samples.loads Samples.str ascii_upper
           (Samples.measuring (Return (Samples.dumps Samples.python_action))) 1
           email secret Samples.session_scraped
           (VDict [("code", VStr "print(6 * 7)")]) (VStr "print(6 * 7)")
           "The answer is 41 + 1").
  - apply python_action_is_named; reflexivity.
  - reflexivity.
  - right. exists [], 0, "SCRAPE". reflexivity.
Defined.

Lemma python_after_scrape_gets_800_characters_witness :
  let s1 := {| current_url := VStr "https://quiz.test/q1";
               history := [StepRecord 0 "SCRAPE" (slice_to 800 Samples.page_1000)] |} in
  Agent.agent_step Samples.loads_more Samples.str ascii_upper
    (Samples.browsing (Return (Samples.dumps Samples.scrape_action))) 0
    email secret Samples.session0 = Next s1
  /\ Agent.agent_step Samples.loads_more Samples.str ascii_upper
       (Samples.measuring (Return (Samples.dumps Samples.python_action))) 1
       email secret s1
     = python_outcome 1 s1
         (Return (Samples.copies
                    (String.length (slice_to 800 Samples.page_1000)) "1"%char)).
Proof.
  apply (python_after_scrape_gets_800_characters Samples.loads_more Samples.str ascii_upper
           (Samples.browsing (Return (Samples.dumps Samples.scrape_action)))
           (Samples.measuring (Return (Samples.dumps Samples.python_action))) 0
           email secret Samples.session0
           (VDict []) (VStr "https://quiz.test/q1") Samples.page_1000
           (VDict [("code", VStr "print(6 * 7)")]) (VStr "print(6 * 7)")).
  - exists Samples.scrape_action, "scrape". repeat split; reflexivity.
  - reflexivity.
  - reflexivity.
  - reflexivity.
  - reflexivity.
  - apply python_action_is_named; reflexivity.
  - reflexivity.
Defined.

Lemma download_file_saves_under_a_dotted_name_witness :
  exists response path,
    requests_get (Samples.serving Samples.unreachable) (VStr "https://quiz.test/data")
    = Return response
    /\ open_write (Samples.serving Samples.unreachable) path (content response)
       = Return tt
    /\ "Success. File saved to data.csv" = "Success. File saved to " ++ path
    /\ In path ["data"; "data" ++ ".pdf"; "data" ++ ".csv"; "data" ++ ".txt"]
    /\ prefix "data" path = true
    /\ contains "." path = true
    /\ (contains "." "data" = true -> path = "data").
Proof.
  apply (download_file_saves_under_a_dotted_name
           (Samples.serving Samples.unreachable) (VStr "https://quiz.test/data")
           "data" "Success. File saved to data.csv").
  - reflexivity.
  - reflexivity.
Defined.

Lemma download_file_rejects_a_name_that_is_no_text_witness :
  exists e,
    forall write,
      Tools.download_file
        {| generate_content := generate_content (Samples.serving Samples.unreachable);
           page_goto := page_goto (Samples.serving Samples.unreachable);
           page_wait_for_load_state :=
             page_wait_for_load_state (Samples.serving Samples.unreachable);
           page_evaluate := page_evaluate (Samples.serving Samples.unreachable);
           requests_get := requests_get (Samples.serving Samples.unreachable);
           requests_post := requests_post (Samples.serving Samples.unreachable);
           open_write := write;
           pdfplumber_open := pdfplumber_open (Samples.serving Samples.unreachable);
           py_exec := py_exec (Samples.serving Samples.unreachable) |}
        (VStr "https://quiz.test/data") VNone
      = Return ("Error downloading: " ++ e).
Proof.
  apply (download_file_rejects_a_name_that_is_no_text
           (Samples.serving Samples.unreachable) (VStr "https://quiz.test/data")
           VNone).
  - intros t. discriminate.
  - intros msg. simpl. discriminate.
Defined.

Lemma read_pdf_joins_the_pages_with_text_witness :
  Tools.read_pdf Samples.rendering (VStr "data_file.pdf")
  = Return (slice_to 10000
              (lines (texts_of [Some Samples.pdf_page; None; Some Samples.pdf_page]))).
Proof.
  apply (read_pdf_joins_the_pages_with_text Samples.rendering
           (VStr "data_file.pdf")
           [Some Samples.pdf_page; None; Some Samples.pdf_page]).
  reflexivity.
Defined.

Lemma read_pdf_gives_up_on_a_failing_page_witness :
  Tools.read_pdf Samples.torn_pdf (VStr "data_file.pdf")
  = Return "Error reading PDF: bad xref table".
Proof.
  apply (read_pdf_gives_up_on_a_failing_page Samples.torn_pdf
           (VStr "data_file.pdf") [Some "Question 1"] "bad xref table"
           [Return (Some "Question 3")]).
  reflexivity.
Defined.

Lemma download_without_a_name_saves_data_file_witness :
  exists ext,
    In ext [".pdf"; ".csv"; ".txt"]
    /\ Agent.agent_step Samples.loads_more Samples.str ascii_upper
         (Samples.serving (Return (Samples.dumps Samples.download_action))) 2
         email secret Samples.session0
       = Next {| current_url := VStr "https://quiz.test/q1";
                 history := [StepRecord 2 "DOWNLOAD"
                               ("Success. File saved to data_file" ++ ext)] |}.
Proof.
  apply (download_without_a_name_saves_data_file Samples.loads_more Samples.str ascii_upper
           (Samples.serving (Return (Samples.dumps Samples.download_action))) 2
           email secret Samples.session0
           [("url", VStr "https://quiz.test/data")]
           {| status_code := 200; text := "a,b"; content := "a,b";
              content_type := Some "text/csv; charset=utf-8";
              json := Raise (Exception "Expecting value: line 1 column 1 (char 0)") |}).
  - exists Samples.download_action, "Download". repeat split; reflexivity.
  - reflexivity.
  - reflexivity.
  - intros path. reflexivity.
Defined.
